(** * FinSight dashboard client: polling hooks, access gate, watchlist
    store and beta enrollment flow.

    Shallow embedding of
    - [src/frontend/hooks/useWatchlist.js] (useWatchlist, useSignals),
    - [src/frontend/hooks/useMarkets.js] (useMarkets),
    - [src/unnamed/part_000] (useChartData),
    - [src/unnamed/part_002] (fetchJSON),
    - [src/unnamed/part_001] (the [FinSight] page component).

    Asynchronous handlers are programs of a small free monad [prog]: a
    program updates React state ([Upd], a setter call, possibly with an
    updater function), awaits a network request ([Fetch]) or finishes
    ([Ret]).  Text typed by the user is a list of UTF-16 code units; the
    program's own literals and server strings are ASCII strings. *)

From Stdlib Require Import List String Ascii ZArith NArith Bool Lia.
Import ListNotations.
Open Scope string_scope.

(* ------------------------------------------------------------------ *)
(** ** JavaScript helpers *)

(** Text the user types is a JavaScript string: its UTF-16 code units.
    The other strings of the program (paths, messages, names of plans
    and categories) are ASCII and stay [string]s. *)
Definition jstring := list N.

(** An ASCII literal of the program as a JavaScript string. *)
Definition js (s : string) : jstring :=
  map (fun a => N.of_nat (nat_of_ascii a)) (list_ascii_of_string s).

(** [!s] for a string: only the empty string is falsy. *)
Definition is_empty (s : jstring) : bool :=
  match s with [] => true | _ :: _ => false end.

(** The code units [String.prototype.trim] strips: ECMAScript's
    WhiteSpace (TAB, VT, FF, U+FEFF and every space separator of category
    Zs: U+0020, U+00A0, U+1680, U+2000 to U+200A, U+202F, U+205F,
    U+3000) and LineTerminator (LF, CR, U+2028, U+2029). *)
Definition is_ws (u : N) : bool :=
  existsb (N.eqb u) [9; 10; 11; 12; 13; 32; 160; 5760; 8232; 8233; 8239; 8287;
                     12288; 65279]%N
  || ((8192 <=? u) && (u <=? 8202))%N.

Fixpoint drop_ws (l : jstring) : jstring :=
  match l with
  | [] => []
  | c :: l' => if is_ws c then drop_ws l' else l
  end.

(** [String.prototype.trim]. *)
Definition trim (s : jstring) : jstring := rev (drop_ws (rev (drop_ws s))).

(** [String.prototype.toUpperCase]: the string is read as code points
    (a surrogate pair is one code point, a lone surrogate stands for
    itself), each code point is replaced by its full uppercase mapping
    (UnicodeData.txt and the unconditional entries of SpecialCasing.txt,
    Unicode 14.0; e.g. U+00DF becomes "SS") and the result is written
    back in UTF-16. The single code point mappings are listed as runs
    [rng lo hi stride delta]: every [stride]-th code point from [lo] to
    [hi] maps to itself plus [delta]. *)
Record case_range := rng { r_lo : N; r_hi : N; r_stride : N; r_delta : Z }.
Record special_case := sp { s_cp : N; s_upper : list N }.

Definition upper_ranges : list case_range := [
  rng 97 122 1 (-32); rng 181 181 1 743; rng 224 246 1 (-32); rng 248 254 1 (-32);
  rng 255 255 1 121; rng 257 303 2 (-1); rng 305 305 1 (-232); rng 307 311 2 (-1);
  rng 314 328 2 (-1); rng 331 375 2 (-1); rng 378 382 2 (-1); rng 383 383 1 (-300);
  rng 384 384 1 195; rng 387 389 2 (-1); rng 392 392 1 (-1); rng 396 396 1 (-1);
  rng 402 402 1 (-1); rng 405 405 1 97; rng 409 409 1 (-1); rng 410 410 1 163;
  rng 414 414 1 130; rng 417 421 2 (-1); rng 424 424 1 (-1); rng 429 429 1 (-1);
  rng 432 432 1 (-1); rng 436 438 2 (-1); rng 441 441 1 (-1); rng 445 445 1 (-1);
  rng 447 447 1 56; rng 453 453 1 (-1); rng 454 454 1 (-2); rng 456 456 1 (-1);
  rng 457 457 1 (-2); rng 459 459 1 (-1); rng 460 460 1 (-2); rng 462 476 2 (-1);
  rng 477 477 1 (-79); rng 479 495 2 (-1); rng 498 498 1 (-1); rng 499 499 1 (-2);
  rng 501 501 1 (-1); rng 505 543 2 (-1); rng 547 563 2 (-1); rng 572 572 1 (-1);
  rng 575 576 1 10815; rng 578 578 1 (-1); rng 583 591 2 (-1); rng 592 592 1 10783;
  rng 593 593 1 10780; rng 594 594 1 10782; rng 595 595 1 (-210); rng 596 596 1 (-206);
  rng 598 599 1 (-205); rng 601 601 1 (-202); rng 603 603 1 (-203); rng 604 604 1 42319;
  rng 608 608 1 (-205); rng 609 609 1 42315; rng 611 611 1 (-207); rng 613 613 1 42280;
  rng 614 614 1 42308; rng 616 616 1 (-209); rng 617 617 1 (-211); rng 618 618 1 42308;
  rng 619 619 1 10743; rng 620 620 1 42305; rng 623 623 1 (-211); rng 625 625 1 10749;
  rng 626 626 1 (-213); rng 629 629 1 (-214); rng 637 637 1 10727; rng 640 640 1 (-218);
  rng 642 642 1 42307; rng 643 643 1 (-218); rng 647 647 1 42282; rng 648 648 1 (-218);
  rng 649 649 1 (-69); rng 650 651 1 (-217); rng 652 652 1 (-71); rng 658 658 1 (-219);
  rng 669 669 1 42261; rng 670 670 1 42258; rng 837 837 1 84; rng 881 883 2 (-1);
  rng 887 887 1 (-1); rng 891 893 1 130; rng 940 940 1 (-38); rng 941 943 1 (-37);
  rng 945 961 1 (-32); rng 962 962 1 (-31); rng 963 971 1 (-32); rng 972 972 1 (-64);
  rng 973 974 1 (-63); rng 976 976 1 (-62); rng 977 977 1 (-57); rng 981 981 1 (-47);
  rng 982 982 1 (-54); rng 983 983 1 (-8); rng 985 1007 2 (-1); rng 1008 1008 1 (-86);
  rng 1009 1009 1 (-80); rng 1010 1010 1 7; rng 1011 1011 1 (-116); rng 1013 1013 1 (-96);
  rng 1016 1016 1 (-1); rng 1019 1019 1 (-1); rng 1072 1103 1 (-32); rng 1104 1119 1 (-80);
  rng 1121 1153 2 (-1); rng 1163 1215 2 (-1); rng 1218 1230 2 (-1); rng 1231 1231 1 (-15);
  rng 1233 1327 2 (-1); rng 1377 1414 1 (-48); rng 4304 4346 1 3008; rng 4349 4351 1 3008;
  rng 5112 5117 1 (-8); rng 7296 7296 1 (-6254); rng 7297 7297 1 (-6253); rng 7298 7298 1 (-6244);
  rng 7299 7300 1 (-6242); rng 7301 7301 1 (-6243); rng 7302 7302 1 (-6236); rng 7303 7303 1 (-6181);
  rng 7304 7304 1 35266; rng 7545 7545 1 35332; rng 7549 7549 1 3814; rng 7566 7566 1 35384;
  rng 7681 7829 2 (-1); rng 7835 7835 1 (-59); rng 7841 7935 2 (-1); rng 7936 7943 1 8;
  rng 7952 7957 1 8; rng 7968 7975 1 8; rng 7984 7991 1 8; rng 8000 8005 1 8;
  rng 8017 8023 2 8; rng 8032 8039 1 8; rng 8048 8049 1 74; rng 8050 8053 1 86;
  rng 8054 8055 1 100; rng 8056 8057 1 128; rng 8058 8059 1 112; rng 8060 8061 1 126;
  rng 8112 8113 1 8; rng 8126 8126 1 (-7205); rng 8144 8145 1 8; rng 8160 8161 1 8;
  rng 8165 8165 1 7; rng 8526 8526 1 (-28); rng 8560 8575 1 (-16); rng 8580 8580 1 (-1);
  rng 9424 9449 1 (-26); rng 11312 11359 1 (-48); rng 11361 11361 1 (-1); rng 11365 11365 1 (-10795);
  rng 11366 11366 1 (-10792); rng 11368 11372 2 (-1); rng 11379 11379 1 (-1); rng 11382 11382 1 (-1);
  rng 11393 11491 2 (-1); rng 11500 11502 2 (-1); rng 11507 11507 1 (-1); rng 11520 11557 1 (-7264);
  rng 11559 11559 1 (-7264); rng 11565 11565 1 (-7264); rng 42561 42605 2 (-1); rng 42625 42651 2 (-1);
  rng 42787 42799 2 (-1); rng 42803 42863 2 (-1); rng 42874 42876 2 (-1); rng 42879 42887 2 (-1);
  rng 42892 42892 1 (-1); rng 42897 42899 2 (-1); rng 42900 42900 1 48; rng 42903 42921 2 (-1);
  rng 42933 42947 2 (-1); rng 42952 42954 2 (-1); rng 42961 42961 1 (-1); rng 42967 42969 2 (-1);
  rng 42998 42998 1 (-1); rng 43859 43859 1 (-928); rng 43888 43967 1 (-38864); rng 65345 65370 1 (-32);
  rng 66600 66639 1 (-40); rng 66776 66811 1 (-40); rng 66967 66977 1 (-39); rng 66979 66993 1 (-39);
  rng 66995 67001 1 (-39); rng 67003 67004 1 (-39); rng 68800 68850 1 (-64); rng 71872 71903 1 (-32);
  rng 93792 93823 1 (-32); rng 125218 125251 1 (-34)].

Definition upper_special : list special_case := [
  sp 223 [83; 83]%N; sp 329 [700; 78]%N; sp 496 [74; 780]%N; sp 912 [921; 776; 769]%N;
  sp 944 [933; 776; 769]%N; sp 1415 [1333; 1362]%N; sp 7830 [72; 817]%N; sp 7831 [84; 776]%N;
  sp 7832 [87; 778]%N; sp 7833 [89; 778]%N; sp 7834 [65; 702]%N; sp 8016 [933; 787]%N;
  sp 8018 [933; 787; 768]%N; sp 8020 [933; 787; 769]%N; sp 8022 [933; 787; 834]%N; sp 8064 [7944; 921]%N;
  sp 8065 [7945; 921]%N; sp 8066 [7946; 921]%N; sp 8067 [7947; 921]%N; sp 8068 [7948; 921]%N;
  sp 8069 [7949; 921]%N; sp 8070 [7950; 921]%N; sp 8071 [7951; 921]%N; sp 8072 [7944; 921]%N;
  sp 8073 [7945; 921]%N; sp 8074 [7946; 921]%N; sp 8075 [7947; 921]%N; sp 8076 [7948; 921]%N;
  sp 8077 [7949; 921]%N; sp 8078 [7950; 921]%N; sp 8079 [7951; 921]%N; sp 8080 [7976; 921]%N;
  sp 8081 [7977; 921]%N; sp 8082 [7978; 921]%N; sp 8083 [7979; 921]%N; sp 8084 [7980; 921]%N;
  sp 8085 [7981; 921]%N; sp 8086 [7982; 921]%N; sp 8087 [7983; 921]%N; sp 8088 [7976; 921]%N;
  sp 8089 [7977; 921]%N; sp 8090 [7978; 921]%N; sp 8091 [7979; 921]%N; sp 8092 [7980; 921]%N;
  sp 8093 [7981; 921]%N; sp 8094 [7982; 921]%N; sp 8095 [7983; 921]%N; sp 8096 [8040; 921]%N;
  sp 8097 [8041; 921]%N; sp 8098 [8042; 921]%N; sp 8099 [8043; 921]%N; sp 8100 [8044; 921]%N;
  sp 8101 [8045; 921]%N; sp 8102 [8046; 921]%N; sp 8103 [8047; 921]%N; sp 8104 [8040; 921]%N;
  sp 8105 [8041; 921]%N; sp 8106 [8042; 921]%N; sp 8107 [8043; 921]%N; sp 8108 [8044; 921]%N;
  sp 8109 [8045; 921]%N; sp 8110 [8046; 921]%N; sp 8111 [8047; 921]%N; sp 8114 [8122; 921]%N;
  sp 8115 [913; 921]%N; sp 8116 [902; 921]%N; sp 8118 [913; 834]%N; sp 8119 [913; 834; 921]%N;
  sp 8124 [913; 921]%N; sp 8130 [8138; 921]%N; sp 8131 [919; 921]%N; sp 8132 [905; 921]%N;
  sp 8134 [919; 834]%N; sp 8135 [919; 834; 921]%N; sp 8140 [919; 921]%N; sp 8146 [921; 776; 768]%N;
  sp 8147 [921; 776; 769]%N; sp 8150 [921; 834]%N; sp 8151 [921; 776; 834]%N; sp 8162 [933; 776; 768]%N;
  sp 8163 [933; 776; 769]%N; sp 8164 [929; 787]%N; sp 8166 [933; 834]%N; sp 8167 [933; 776; 834]%N;
  sp 8178 [8186; 921]%N; sp 8179 [937; 921]%N; sp 8180 [911; 921]%N; sp 8182 [937; 834]%N;
  sp 8183 [937; 834; 921]%N; sp 8188 [937; 921]%N; sp 64256 [70; 70]%N; sp 64257 [70; 73]%N;
  sp 64258 [70; 76]%N; sp 64259 [70; 70; 73]%N; sp 64260 [70; 70; 76]%N; sp 64261 [83; 84]%N;
  sp 64262 [83; 84]%N; sp 64275 [1348; 1350]%N; sp 64276 [1348; 1333]%N; sp 64277 [1348; 1339]%N;
  sp 64278 [1358; 1350]%N; sp 64279 [1348; 1341]%N].

Definition upper_cp (c : N) : list N :=
  match find (fun e => N.eqb (s_cp e) c) upper_special with
  | Some e => s_upper e
  | None =>
      match find (fun r => ((r_lo r <=? c) && (c <=? r_hi r)
                            && N.eqb ((c - r_lo r) mod r_stride r) 0)%N)
                 upper_ranges with
      | Some r => [Z.to_N (Z.of_N c + r_delta r)]
      | None => [c]
      end
  end.

Definition is_high (u : N) : bool := ((55296 <=? u) && (u <=? 56319))%N.
Definition is_low (u : N) : bool := ((56320 <=? u) && (u <=? 57343))%N.

(** UTF-16 code units to code points. *)
Fixpoint utf16_decode (l : jstring) : list N :=
  match l with
  | [] => []
  | u :: rest =>
      match rest with
      | v :: rest' =>
          if is_high u && is_low v
          then (65536 + (u - 55296) * 1024 + (v - 56320))%N :: utf16_decode rest'
          else u :: utf16_decode rest
      | [] => [u]
      end
  end.

(** A code point to UTF-16 code units. *)
Definition utf16_encode (c : N) : jstring :=
  if (c <? 65536)%N then [c]
  else [(55296 + (c - 65536) / 1024)%N; (56320 + (c - 65536) mod 1024)%N].

Definition toUpperCase (s : jstring) : jstring :=
  flat_map utf16_encode (flat_map upper_cp (utf16_decode s)).

(** A JavaScript value that is a string or [undefined]. *)
Definition jsstr := option string.

(** [a || b] for a possibly undefined string [a]: [""] and [undefined]
    are falsy. *)
Definition js_or (a : jsstr) (b : string) : string :=
  match a with
  | Some s => if String.eqb s "" then b else s
  | None => b
  end.

(* ------------------------------------------------------------------ *)
(** ** Signal entries and the access gate (FinSight render) *)

(** A signal entry as received from [/api/signals].  [ref] models the
    identity of the JavaScript object ([Array.prototype.indexOf] compares
    by reference); the other fields are the ones the gate and the
    synchronizer read. *)
Record Signal := mkSignal {
  ref : nat;
  id : Z;
  signal : string
}.

(** [filter === "ALL" ? signals : signals.filter(s => s.signal === filter)] *)
Definition filtered (filter : string) (signals : list Signal) : list Signal :=
  if String.eqb filter "ALL" then signals
  else List.filter (fun s => String.eqb (signal s) filter) signals.

(** [signals.indexOf(s)]: first position holding the same object, or -1. *)
Fixpoint indexOf_from (l : list Signal) (s : Signal) (i : Z) : Z :=
  match l with
  | [] => (-1)%Z
  | x :: l' => if Nat.eqb (ref x) (ref s) then i else indexOf_from l' s (i + 1)
  end.

Definition indexOf (l : list Signal) (s : Signal) : Z := indexOf_from l s 0.

(** [plan === "FREE"] *)
Definition is_free (plan : jsstr) : bool :=
  match plan with Some p => String.eqb p "FREE" | None => false end.

(** [const isLocked = (s) => plan === "FREE" && signals.indexOf(s) >= 3;] *)
Definition isLocked (plan : jsstr) (signals : list Signal) (s : Signal) : bool :=
  is_free plan && (3 <=? indexOf signals s)%Z.

(** What [filtered.map(...)] renders for one entry: a blurred locked
    placeholder, or a [SignalCard] with its [isNew] flag. *)
Inductive Rendered :=
| LockedCard (sid : Z)
| SignalCard (sid : Z) (isNew : bool).

(** [item.id === newId] with [newId] possibly [null]. *)
Definition id_is (i : Z) (newId : option Z) : bool :=
  match newId with Some n => Z.eqb i n | None => false end.

Definition render_signals (plan : jsstr) (filter : string)
    (signals : list Signal) (newId : option Z) : list Rendered :=
  map (fun item =>
         if isLocked plan signals item then LockedCard (id item)
         else SignalCard (id item) (id_is (id item) newId))
      (filtered filter signals).

(** Whether the entry rendered at position [p] is obscured. *)
Definition obscured_at (v : list Rendered) (p : nat) : bool :=
  match nth_error v p with Some (LockedCard _) => true | _ => false end.

(* ------------------------------------------------------------------ *)
(** ** Requests, responses and [fetchJSON] *)

(** A request as issued to [fetch]; the path is relative to the base URL
    and a JSON body is an object of string fields. *)
Inductive request :=
| GET (path : string)
| POST (path : string) (body : list (string * jstring))
| DELETE (path : string).

(** The settled [fetch] promise: a network failure (rejection), or a
    response with its [ok] flag and the result of [res.json()]
    ([None] when the body is not JSON and [json()] rejects). *)
Inductive http_response (B : Type) :=
| NetErr
| Resp (ok : bool) (body : option B).
Arguments NetErr {B}.
Arguments Resp {B} ok body.

(** [fetchJSON]: throws when [!res.ok], otherwise returns [res.json()];
    [None] stands for a thrown error. *)
Definition fetchJSON {B} (r : http_response B) : option B :=
  match r with
  | Resp true b => b
  | _ => None
  end.

(* ------------------------------------------------------------------ *)
(** ** Asynchronous handlers *)

Inductive prog (S R : Type) :=
| Ret
| Upd (f : S -> S) (k : prog S R)
| Fetch (q : request) (k : R -> prog S R).
Arguments Ret {S R}.
Arguments Upd {S R} f k.
Arguments Fetch {S R} q k.

(** [p; q] where [p] cannot throw (its failures are caught inside). *)
Fixpoint seq_prog {S R} (p q : prog S R) : prog S R :=
  match p with
  | Ret => q
  | Upd f k => Upd f (seq_prog k q)
  | Fetch r k => Fetch r (fun x => seq_prog (k x) q)
  end.

(** Running a handler to completion against the responses of its
    requests, in order; the flag is [false] when it is still awaiting. *)
Fixpoint run {S R} (p : prog S R) (rs : list R) (s : S)
    : S * list request * bool :=
  match p with
  | Ret => (s, [], true)
  | Upd f k => run k rs (f s)
  | Fetch q k =>
      match rs with
      | [] => (s, [q], false)
      | r :: rs' =>
          let '(s', qs, c) := run (k r) rs' s in (s', q :: qs, c)
      end
  end.

(** A program that issues no request (runs to completion at once). *)
Fixpoint no_fetch {S R} (p : prog S R) : bool :=
  match p with
  | Ret => true
  | Upd _ k => no_fetch k
  | Fetch _ _ => false
  end.

(* ------------------------------------------------------------------ *)
(** ** Polling lifecycle of a hook: [useEffect(() => { load();
    const interval = setInterval(load, pollMs);
    return () => clearInterval(interval); }, [load, pollMs])].

    The hook's [load] is a function of its dependencies [d : D] (the
    [plan] of [useSignals]; nothing for the other hooks, whose [load] and
    [pollMs] never change).  A configuration holds the hook state, the
    dependencies of the registered interval ([None] once it is cleared),
    the continuations of the [load] calls awaiting their [fetch], the
    requests issued so far, and whether the component is still mounted. *)
Record config (S R D : Type) := mkConfig {
  st : S;
  timer : option D;
  pending : list (R -> prog S R);
  issued : list request;
  alive : bool
}.
Arguments mkConfig {S R D} st timer pending issued alive.
Arguments st {S R D} c.
Arguments timer {S R D} c.
Arguments pending {S R D} c.
Arguments issued {S R D} c.
Arguments alive {S R D} c.

Inductive event (R D : Type) :=
| Tick                        (* the registered interval fires *)
| Deliver (n : nat) (r : R)   (* the [n]-th awaiting fetch settles *)
| Rerun (d : D)               (* the dependencies change to [d]: the
                                 cleanup runs, then the effect body
                                 with the [load] of [d] *)
| Unmount.                    (* the cleanup runs and the component
                                 goes away *)
Arguments Tick {R D}.
Arguments Deliver {R D} n r.
Arguments Rerun {R D} d.
Arguments Unmount {R D}.

(** Execute synchronously until the program ends or awaits.  Once the
    component is unmounted React drops its state updates; the requests
    still go out. *)
Fixpoint exec {S R D} (p : prog S R) (c : config S R D) : config S R D :=
  match p with
  | Ret => c
  | Upd f k =>
      exec k (if alive c
              then mkConfig (f (st c)) (timer c) (pending c) (issued c) (alive c)
              else c)
  | Fetch q k =>
      mkConfig (st c) (timer c) (pending c ++ [k]) (issued c ++ [q]) (alive c)
  end.

Fixpoint remove_nth {A} (n : nat) (l : list A) : list A :=
  match n, l with
  | _, [] => []
  | 0, _ :: l' => l'
  | S n', x :: l' => x :: remove_nth n' l'
  end.

Definition step {S R D} (load : D -> prog S R) (c : config S R D)
    (e : event R D) : config S R D :=
  match e with
  | Tick => match timer c with Some d => exec (load d) c | None => c end
  | Deliver n r =>
      match nth_error (pending c) n with
      | Some k =>
          exec (k r) (mkConfig (st c) (timer c) (remove_nth n (pending c))
                         (issued c) (alive c))
      | None => c
      end
  | Rerun d =>
      if alive c
      then exec (load d) (mkConfig (st c) (Some d) (pending c) (issued c) (alive c))
      else c
  | Unmount => mkConfig (st c) None (pending c) (issued c) false
  end.

(** The effect body on mount: [load()] then register the interval. *)
Definition mount {S R D} (load : D -> prog S R) (d : D) (s0 : S) : config S R D :=
  exec (load d) (mkConfig s0 (Some d) [] [] true).

Definition run_events {S R D} (load : D -> prog S R) (c : config S R D)
    (tr : list (event R D)) : config S R D :=
  fold_left (step load) tr c.

(** The [load] of a hook whose dependencies never change. *)
Definition const_load {S R} (p : prog S R) (_ : unit) : prog S R := p.

(* ------------------------------------------------------------------ *)
(** ** useMarkets, useChartData, useWatchlist: the [load] they share

    Each of these hooks holds [useState] for its data and for [loading];
    [console.error] calls are recorded in [log]. *)
Record poll_state (T : Type) := mkPoll {
  held : T;
  loading : bool;
  log : list string
}.
Arguments mkPoll {T} held loading log.
Arguments held {T} p.
Arguments loading {T} p.
Arguments log {T} p.

Definition set_held {T} (d : T) (s : poll_state T) : poll_state T :=
  mkPoll d (loading s) (log s).
Definition set_loading {T} (b : bool) (s : poll_state T) : poll_state T :=
  mkPoll (held s) b (log s).
Definition add_log {T} (m : string) (s : poll_state T) : poll_state T :=
  mkPoll (held s) (loading s) (log s ++ [m]).

(** [const load = useCallback(async () => {
       try { const data = await fetchJSON(path); setData(data); }
       catch (e) { console.error(msg, e); }
       finally { setLoading(false); } }, []);] *)
Definition load_set {T} (path msg : string)
    : prog (poll_state T) (http_response T) :=
  Fetch (GET path) (fun r =>
    match fetchJSON r with
    | Some data => Upd (set_held data) (Upd (set_loading false) Ret)
    | None => Upd (add_log msg) (Upd (set_loading false) Ret)
    end).

(** Market overview payload: name to quote maps, as association lists. *)
Record Quote := mkQuote { price : option Z; change_pct : option Z }.
Record Overview := mkOverview {
  indices : list (string * Quote);
  commodities : list (string * Quote);
  crypto : list (string * Quote)
}.

Definition useMarkets_load : prog (poll_state Overview) (http_response Overview) :=
  load_set "/api/markets/overview" "Failed to fetch markets:".

Definition useMarkets_init : poll_state Overview :=
  mkPoll (mkOverview [] [] []) true [].

Record ChartPoint := mkChartPoint {
  time : string; buy : Z; sell : Z; avoid : Z; watch : Z
}.

Definition useChartData_load
    : prog (poll_state (list ChartPoint)) (http_response (list ChartPoint)) :=
  load_set "/api/chart-data" "Failed to fetch chart data:".

Definition useChartData_init : poll_state (list ChartPoint) := mkPoll [] true [].

(** Watchlist endpoints' JSON: a list of items for [GET], anything else
    otherwise; [setWatchlist(data)] stores what it is given. *)
Record WatchItem := mkWatchItem {
  ticker : string; name : string; wprice : option Z; changePct : option Z
}.

Inductive wl_json :=
| WList (items : list WatchItem)
| WOther.

Definition wl_state := poll_state wl_json.
Definition wl_resp := http_response wl_json.

Definition useWatchlist_load : prog wl_state wl_resp :=
  load_set "/api/watchlist" "Failed to fetch watchlist:".

Definition useWatchlist_init : wl_state := mkPoll (WList []) true [].

(** [addTicker = async (ticker, name) => { try { await fetchJSON(
       "/api/watchlist", { method: "POST", body: JSON.stringify({ ticker,
       name }) }); await load(); } catch (e) { console.error(...); } }] *)
Definition addTicker (t n : jstring) : prog wl_state wl_resp :=
  Fetch (POST "/api/watchlist" [("ticker", t); ("name", n)]) (fun r =>
    match fetchJSON r with
    | Some _ => useWatchlist_load
    | None => Upd (add_log "Failed to add ticker:") Ret
    end).

(** [removeTicker = async (ticker) => { try { await fetchJSON(
       `/api/watchlist/${ticker}`, { method: "DELETE" }); await load(); }
       catch (e) { console.error(...); } }] *)
Definition removeTicker (t : string) : prog wl_state wl_resp :=
  Fetch (DELETE ("/api/watchlist/" ++ t)) (fun r =>
    match fetchJSON r with
    | Some _ => useWatchlist_load
    | None => Upd (add_log "Failed to remove ticker:") Ret
    end).

(* ------------------------------------------------------------------ *)
(** ** useSignals *)

Record sig_state := mkSig {
  signals : list Signal;
  sig_loading : bool;
  lastFetched : option Z;
  newId : option Z;
  sig_log : list string
}.

Definition useSignals_init : sig_state := mkSig [] true None None [].

(** A settled signals request, with the clock value [new Date()] reads
    when the continuation runs. *)
Definition sig_resp := (Z * http_response (list Signal))%type.

(** [const prevIds = new Set(prev.map(s => s.id));
     const newest = data.find(s => !prevIds.has(s.id));] *)
Definition newest (prev data : list Signal) : option Signal :=
  find (fun s => negb (existsb (Z.eqb (id s)) (map id prev))) data.

(** The updater passed to [setSignals]: it calls [setNewId(newest.id)]
    when [newest] is found and returns [data]. *)
Definition signals_updater (data : list Signal) (s : sig_state) : sig_state :=
  let nid := match newest (signals s) data with
             | Some e => Some (id e)
             | None => newId s
             end in
  mkSig data (sig_loading s) (lastFetched s) nid (sig_log s).

Definition set_lastFetched (t : Z) (s : sig_state) : sig_state :=
  mkSig (signals s) (sig_loading s) (Some t) (newId s) (sig_log s).
Definition set_sig_loading (b : bool) (s : sig_state) : sig_state :=
  mkSig (signals s) b (lastFetched s) (newId s) (sig_log s).
Definition add_sig_log (m : string) (s : sig_state) : sig_state :=
  mkSig (signals s) (sig_loading s) (lastFetched s) (newId s) (sig_log s ++ [m]).

(** The [plan] parameter of [useSignals(plan = "FREE", ...)]: the default
    value replaces an [undefined] argument. *)
Definition plan_param (v : jsstr) : string :=
  match v with Some s => s | None => "FREE" end.

(** [load] of [useSignals(plan)] for the page's [plan] state. *)
Definition useSignals_load (plan : jsstr) : prog sig_state sig_resp :=
  Fetch (GET ("/api/signals?plan=" ++ plan_param plan ++ "&limit=50"))
    (fun '(now, r) =>
       match fetchJSON r with
       | Some data =>
           Upd (signals_updater data)
             (Upd (set_lastFetched now) (Upd (set_sig_loading false) Ret))
       | None =>
           Upd (add_sig_log "Failed to fetch signals:")
             (Upd (set_sig_loading false) Ret)
       end).

(* ------------------------------------------------------------------ *)
(** ** FinSight: beta enrollment flow *)

(** [betaStep]: ["pick"] | ["form"] | ["verify"] | ["done"]. *)
Inductive BetaStep := pick | form | verify | done.

Record beta_state := mkBeta {
  plan : jsstr;
  showUpgrade : bool;
  betaStep : BetaStep;
  betaChoice : string;
  betaName : jstring;
  betaEmail : jstring;
  betaOtp : jstring;
  betaSubmitting : bool;
  betaError : string
}.

(** [useState] initial values. *)
Definition beta_init : beta_state :=
  mkBeta (Some "FREE") false pick "PRO" [] [] [] false "".

Definition setPlan v s := mkBeta v (showUpgrade s) (betaStep s) (betaChoice s)
  (betaName s) (betaEmail s) (betaOtp s) (betaSubmitting s) (betaError s).
Definition setShowUpgrade v s := mkBeta (plan s) v (betaStep s) (betaChoice s)
  (betaName s) (betaEmail s) (betaOtp s) (betaSubmitting s) (betaError s).
Definition setBetaStep v s := mkBeta (plan s) (showUpgrade s) v (betaChoice s)
  (betaName s) (betaEmail s) (betaOtp s) (betaSubmitting s) (betaError s).
Definition setBetaChoice v s := mkBeta (plan s) (showUpgrade s) (betaStep s) v
  (betaName s) (betaEmail s) (betaOtp s) (betaSubmitting s) (betaError s).
Definition setBetaName v s := mkBeta (plan s) (showUpgrade s) (betaStep s)
  (betaChoice s) v (betaEmail s) (betaOtp s) (betaSubmitting s) (betaError s).
Definition setBetaEmail v s := mkBeta (plan s) (showUpgrade s) (betaStep s)
  (betaChoice s) (betaName s) v (betaOtp s) (betaSubmitting s) (betaError s).
Definition setBetaOtp v s := mkBeta (plan s) (showUpgrade s) (betaStep s)
  (betaChoice s) (betaName s) (betaEmail s) v (betaSubmitting s) (betaError s).
Definition setBetaSubmitting v s := mkBeta (plan s) (showUpgrade s) (betaStep s)
  (betaChoice s) (betaName s) (betaEmail s) (betaOtp s) v (betaError s).
Definition setBetaError v s := mkBeta (plan s) (showUpgrade s) (betaStep s)
  (betaChoice s) (betaName s) (betaEmail s) (betaOtp s) (betaSubmitting s) v.

(** JSON body of the beta endpoints: [{detail}] on error, [{plan}] on a
    successful verification; absent fields are [undefined]. *)
Record BetaBody := mkBetaBody { detail : jsstr; body_plan : jsstr }.
Definition beta_resp := http_response BetaBody.

Definition msg_missing_fields := "Please enter your name and email.".
Definition msg_wrong := "Something went wrong. Please try again.".
Definition msg_missing_code := "Please enter the verification code.".
Definition msg_invalid_code := "Invalid code. Please try again.".

(** Picking a plan card: [setBetaChoice(p.plan); setBetaStep("form");] *)
Definition pickPlan (p : string) : prog beta_state beta_resp :=
  Upd (setBetaChoice p) (Upd (setBetaStep form) Ret).

(** [handleBetaSubmit]; [s] holds the values its closure captured. *)
Definition handleBetaSubmit (s : beta_state) : prog beta_state beta_resp :=
  if is_empty (trim (betaName s)) || is_empty (trim (betaEmail s))
  then Upd (setBetaError msg_missing_fields) Ret
  else
    Upd (setBetaError "") (Upd (setBetaSubmitting true)
      (Fetch (POST "/api/beta-signup"
                [("name", trim (betaName s)); ("email", trim (betaEmail s));
                 ("plan", js (betaChoice s))])
         (fun r =>
            match r with
            | Resp false (Some err) =>
                (* [return] inside [try]: [finally] still runs *)
                Upd (setBetaError (js_or (detail err) msg_wrong))
                  (Upd (setBetaSubmitting false) Ret)
            | Resp true _ =>
                Upd (setBetaOtp []) (Upd (setBetaStep verify)
                  (Upd (setBetaSubmitting false) Ret))
            | _ =>
                (* network error, or [res.json()] rejecting: [catch] *)
                Upd (setBetaError msg_wrong) (Upd (setBetaSubmitting false) Ret)
            end))).

(** [handleBetaVerify]. *)
Definition handleBetaVerify (s : beta_state) : prog beta_state beta_resp :=
  if is_empty (trim (betaOtp s))
  then Upd (setBetaError msg_missing_code) Ret
  else
    Upd (setBetaError "") (Upd (setBetaSubmitting true)
      (Fetch (POST "/api/beta-verify"
                [("email", trim (betaEmail s)); ("code", trim (betaOtp s))])
         (fun r =>
            match r with
            | Resp false (Some err) =>
                Upd (setBetaError (js_or (detail err) msg_invalid_code))
                  (Upd (setBetaSubmitting false) Ret)
            | Resp true (Some data) =>
                Upd (setPlan (body_plan data)) (Upd (setBetaStep done)
                  (Upd (setBetaSubmitting false) Ret))
            | _ =>
                Upd (setBetaError msg_wrong) (Upd (setBetaSubmitting false) Ret)
            end))).

(** [openUpgrade]. *)
Definition openUpgrade : prog beta_state beta_resp :=
  Upd (setBetaStep pick) (Upd (setBetaName []) (Upd (setBetaEmail [])
    (Upd (setBetaOtp []) (Upd (setBetaError "") (Upd (setShowUpgrade true) Ret))))).

(* ------------------------------------------------------------------ *)
(** ** FinSight: adding a ticker from the watchlist tab *)

Record view_state := mkView { tickerInput : jstring; wl : wl_state }.

Definition setTickerInput v s := mkView v (wl s).

(** A watchlist program run inside the page state. *)
Fixpoint in_view {R} (p : prog wl_state R) : prog view_state R :=
  match p with
  | Ret => Ret
  | Upd f k => Upd (fun v => mkView (tickerInput v) (f (wl v))) (in_view k)
  | Fetch q k => Fetch q (fun r => in_view (k r))
  end.

(** [handleAddTicker = async () => { const t = tickerInput.trim()
       .toUpperCase(); if (!t) return; await addTicker(t, t);
       setTickerInput(""); }] *)
Definition handleAddTicker (s : view_state) : prog view_state wl_resp :=
  let t := toUpperCase (trim (tickerInput s)) in
  if is_empty t then Ret
  else seq_prog (in_view (addTicker t t)) (Upd (setTickerInput []) Ret).

(** Every awaiting attempt of a configuration is a call of the [load]
    whose continuation is [k]. *)
Definition inflight_ok {S R D} (k : R -> prog S R) (c : config S R D) : Prop :=
  Forall (fun k' => k' = k) (pending c).

(** The request and the continuation of a [load] that awaits one
    request. *)
Definition load_req {S R} (p : prog S R) : request :=
  match p with Fetch q _ => q | _ => GET "" end.
Definition load_cont {S R} (p : prog S R) : R -> prog S R :=
  match p with Fetch _ k => k | _ => fun _ => Ret end.

(** [res.ok] of a settled request. *)
Definition request_ok {B} (r : http_response B) : bool :=
  match r with Resp true _ => true | _ => false end.

(* ------------------------------------------------------------------ *)
(** ** FinSight: enrollment form controls *)

(** [e.target.value.replace(/\D/g, "").slice(0, 6)] on the code input;
    without the [u] flag [\D] matches every code unit but 0 to 9. *)
Definition is_digit (u : N) : bool := ((48 <=? u) && (u <=? 57))%N.

Definition sanitize_otp (v : jstring) : jstring := firstn 6 (filter is_digit v).

(** [onChange={e => setBetaOtp(...)}] *)
Definition onOtpChange (v : jstring) : prog beta_state beta_resp :=
  Upd (setBetaOtp (sanitize_otp v)) Ret.

(** [disabled={betaSubmitting || betaOtp.length < 6}] of the verify
    button and [disabled={betaSubmitting}] of the submit button. *)
Definition verifyDisabled (s : beta_state) : bool :=
  betaSubmitting s || (List.length (betaOtp s) <? 6)%nat.
Definition submitDisabled (s : beta_state) : bool := betaSubmitting s.

(** [onKeyDown={e => e.key === "Enter" && handleBetaVerify()}] on the code
    input and [... && handleBetaSubmit()] on the e-mail input. *)
Definition otpKeyDown (key : string) (s : beta_state) : prog beta_state beta_resp :=
  if String.eqb key "Enter" then handleBetaVerify s else Ret.
Definition emailKeyDown (key : string) (s : beta_state) : prog beta_state beta_resp :=
  if String.eqb key "Enter" then handleBetaSubmit s else Ret.

(** [← Back] in the form step: [setBetaStep("pick")]. *)
Definition backToPick : prog beta_state beta_resp := Upd (setBetaStep pick) Ret.

(** [← Resend code]: [setBetaStep("form"); setBetaError("");] *)
Definition resendCode : prog beta_state beta_resp :=
  Upd (setBetaStep form) (Upd (setBetaError "") Ret).

(** Header plan badge: [onClick={() => plan === "FREE" && openUpgrade()}]. *)
Definition headerPlanClick (s : beta_state) : prog beta_state beta_resp :=
  if is_free (plan s) then openUpgrade else Ret.

(* ------------------------------------------------------------------ *)
(** ** FinSight: per-category counts *)

(** [a[k] = (a[k] || 0) + 1] on the accumulator object, an association
    list in insertion order (names inherited from [Object.prototype] are
    not modelled). *)
Fixpoint count_add (a : list (string * nat)) (k : string) : list (string * nat) :=
  match a with
  | [] => [(k, 1%nat)]
  | (k', n) :: a' => if String.eqb k' k then (k', S n) :: a' else (k', n) :: count_add a' k
  end.

(** [a[k] || 0] *)
Fixpoint count_get (a : list (string * nat)) (k : string) : nat :=
  match a with
  | [] => 0
  | (k', n) :: a' => if String.eqb k' k then n else count_get a' k
  end.

(** [signals.reduce((a, s) => { a[s.signal] = (a[s.signal] || 0) + 1;
       return a; }, {})] *)
Definition counts (signals : list Signal) : list (string * nat) :=
  fold_left (fun a s => count_add a (signal s)) signals [].

(** Whether a rendered entry is an unlocked card. *)
Definition is_card (r : Rendered) : bool :=
  match r with SignalCard _ _ => true | LockedCard _ => false end.

(* ------------------------------------------------------------------ *)
(** ** SignalCard: ticker badges *)

(** [(item.tickers || []).slice(0, 2)] and the [+N more] badge shown when
    [(item.tickers || []).length > 2]. *)
Definition ticker_badges (tickers : option (list string))
    : list string * option nat :=
  let ts := match tickers with Some l => l | None => [] end in
  (firstn 2 ts,
   if (2 <? List.length ts)%nat then Some (List.length ts - 2)%nat else None).

(* ------------------------------------------------------------------ *)
(** ** timeAgo *)

(** A JavaScript number that is an integer or [NaN]. *)
Inductive jsnum := Num (z : Z) | NaN.

(** [Math.floor(a / b)] for a positive integer [b]. *)
Definition floor_div (a : jsnum) (b : Z) : jsnum :=
  match a with Num z => Num (z / b) | NaN => NaN end.

(** [a < b]: false when [a] is [NaN]. *)
Definition num_lt (a : jsnum) (b : Z) : bool :=
  match a with Num z => (z <? b)%Z | NaN => false end.

Fixpoint digits_rev (fuel : nat) (z : Z) (acc : string) : string :=
  match fuel with
  | O => acc
  | S f =>
      let acc' := String (ascii_of_nat (48 + Z.to_nat (z mod 10))) acc in
      if (z <? 10)%Z then acc' else digits_rev f (z / 10) acc'
  end.

(** [String(n)] for an integer or [NaN]. *)
Definition num_to_string (a : jsnum) : string :=
  match a with
  | NaN => "NaN"
  | Num z =>
      if (z <? 0)%Z
      then "-" ++ digits_rev (S (Z.to_nat (Z.log2 (- z)))) (- z) ""
      else digits_rev (S (Z.to_nat (Z.log2 z))) z ""
  end.

(** The [isoString] argument: falsy ([null], [undefined], [""]), a date
    that parses to [ms], or one that does not ([getTime()] is [NaN]). *)
Inductive iso_input := NoDate | ValidDate (ms : Z) | InvalidDate.

(** [timeAgo(isoString)] at the clock value [now] of [Date.now()]. *)
Definition timeAgo (now : Z) (iso : iso_input) : string :=
  match iso with
  | NoDate => "—"
  | _ =>
      let diff := match iso with ValidDate t => Num (now - t) | _ => NaN end in
      let mins := floor_div diff 60000 in
      if num_lt mins 1 then "just now"
      else if num_lt mins 60 then num_to_string mins ++ "m ago"
      else
        let hours := floor_div mins 60 in
        if num_lt hours 24 then num_to_string hours ++ "h ago"
        else num_to_string (floor_div hours 24) ++ "d ago"
  end.

(* ------------------------------------------------------------------ *)
(** ** Watchlist: sequences of operations *)

(** The requests a run exchanged with their responses. *)
Fixpoint exchanges {S R} (p : prog S R) (rs : list R) (s : S)
    : S * list (request * R) :=
  match p with
  | Ret => (s, [])
  | Upd f k => exchanges k rs (f s)
  | Fetch q k =>
      match rs with
      | [] => (s, [])
      | r :: rs' => let '(s', ex) := exchanges (k r) rs' s in (s', (q, r) :: ex)
      end
  end.

(** A user-level watchlist operation with the responses its requests get. *)
Inductive wl_op :=
| OpLoad (r : wl_resp)
| OpAdd (t n : jstring) (r1 r2 : wl_resp)
| OpRemove (t : string) (r1 r2 : wl_resp).

Definition op_prog (o : wl_op) : prog wl_state wl_resp :=
  match o with
  | OpLoad _ => useWatchlist_load
  | OpAdd t n _ _ => addTicker t n
  | OpRemove t _ _ => removeTicker t
  end.

Definition op_resps (o : wl_op) : list wl_resp :=
  match o with
  | OpLoad r => [r]
  | OpAdd _ _ r1 r2 => [r1; r2]
  | OpRemove _ r1 r2 => [r1; r2]
  end.

(** Operations run one after the other; the state and all exchanges. *)
Fixpoint run_ops (ops : list wl_op) (s : wl_state) : wl_state * list (request * wl_resp) :=
  match ops with
  | [] => (s, [])
  | o :: ops' =>
      let '(s1, ex1) := exchanges (op_prog o) (op_resps o) s in
      let '(s2, ex2) := run_ops ops' s1 in (s2, (ex1 ++ ex2)%list)
  end.

(** The body of the last [GET /api/watchlist] that succeeded. *)
Fixpoint last_good_get (ex : list (request * wl_resp)) (d : wl_json) : wl_json :=
  match ex with
  | [] => d
  | (GET p, r) :: ex' =>
      last_good_get ex'
        (if String.eqb p "/api/watchlist"
         then match fetchJSON r with Some b => b | None => d end else d)
  | _ :: ex' => last_good_get ex' d
  end.

(* ------------------------------------------------------------------ *)
(** ** Observations of a run, and sample inputs *)

Definition final_state {S R} (p : prog S R) (rs : list R) (s : S) : S :=
  fst (fst (run p rs s)).
Definition requests {S R} (p : prog S R) (rs : list R) (s : S) : list request :=
  snd (fst (run p rs s)).

Definition sig_a := mkSignal 0 10 "BUY".
Definition sig_b := mkSignal 1 11 "BUY".
Definition sig_c := mkSignal 2 12 "BUY".
Definition sig_d := mkSignal 3 13 "SELL".
Definition sig_e := mkSignal 4 14 "WATCH".
Definition feed5 := [sig_a; sig_b; sig_c; sig_d; sig_e].

Definition sig_1 := mkSignal 21 1 "BUY".
Definition sig_2 := mkSignal 22 2 "SELL".
Definition sig_3 := mkSignal 23 3 "WATCH".
Definition sig_4 := mkSignal 24 4 "AVOID".

Definition beta_form_sample : beta_state :=
  mkBeta (Some "FREE") true form "ELITE" (js "Ann") (js "ann@example.com") [] false "".

Definition beta_verify_sample : beta_state :=
  mkBeta (Some "FREE") true verify "PRO" (js "Ann") (js "ann@example.com") (js "123456")
    false "".

Definition view_sample (input : jstring) : view_state :=
  mkView input useWatchlist_init.

Definition ov_old := mkOverview [("ASX200", mkQuote (Some 7000%Z) (Some 1%Z))] [] [].
Definition ov_new := mkOverview [("ASX200", mkQuote (Some 7100%Z) (Some 2%Z))] [] [].

(* ================================================================== *)
(** * Properties *)

(** ** Access gate *)


Example render_all_free :
  render_signals (Some "FREE") "ALL" feed5 None =
  [SignalCard 10 false; SignalCard 11 false; SignalCard 12 false;
   LockedCard 13; LockedCard 14].
Proof. reflexivity. Qed.

Example render_sell_free :
  render_signals (Some "FREE") "SELL" feed5 None = [LockedCard 13].
Proof. reflexivity. Qed.

Lemma indexOf_from_nth (l : list Signal) (item : Signal) (i : Z) (j : nat) :
  NoDup (map ref l) -> nth_error l j = Some item ->
  indexOf_from l item i = (i + Z.of_nat j)%Z.
Proof.
  revert i j. induction l as [|x l IH]; intros i j Hnd Hj.
  - destruct j; discriminate.
  - simpl in Hnd. inversion Hnd as [|? ? Hnotin Hnd']; subst.
    destruct j as [|j]; simpl in Hj.
    + injection Hj as <-. simpl. rewrite Nat.eqb_refl. lia.
    + simpl. destruct (Nat.eqb_spec (ref x) (ref item)) as [Heq|Hne].
      * exfalso. apply Hnotin. rewrite Heq.
        apply in_map. eapply nth_error_In. exact Hj.
      * rewrite (IH (i + 1)%Z j Hnd' Hj). lia.
Qed.

Lemma indexOf_nth (l : list Signal) (item : Signal) (j : nat) :
  NoDup (map ref l) -> nth_error l j = Some item ->
  indexOf l item = Z.of_nat j.
Proof. intros. unfold indexOf. rewrite (indexOf_from_nth l item 0 j); auto. Qed.

Lemma obscured_at_render (plan : jsstr) (filter : string) (sigs : list Signal)
    (nid : option Z) (p : nat) :
  obscured_at (render_signals plan filter sigs nid) p =
  match nth_error (filtered filter sigs) p with
  | Some item => isLocked plan sigs item
  | None => false
  end.
Proof.
  unfold obscured_at, render_signals. rewrite nth_error_map.
  destruct (nth_error (filtered filter sigs) p) as [item|]; simpl; auto.
  destruct (isLocked plan sigs item); reflexivity.
Qed.

(** C1, as stated, fails: under the SELL filter of a free plan the
    entry at position 0 of the filtered view is obscured. *)
Lemma C1_counterexample :
  ~ (forall plan filter sigs nid p,
        (p < List.length (render_signals plan filter sigs nid))%nat ->
        (obscured_at (render_signals plan filter sigs nid) p = true <->
         is_free plan = true /\ (3 <= p)%nat)).
Proof.
  intros H.
  destruct (H (Some "FREE") "SELL" feed5 None 0%nat) as [H1 _].
  - vm_compute. lia.
  - assert (Hob : obscured_at (render_signals (Some "FREE") "SELL" feed5 None) 0
                  = true) by reflexivity.
    destruct (H1 Hob) as [_ Hle]. lia.
Qed.

(** C1 (amended): the entry at position [p] of the filtered view is
    obscured iff the plan is ["FREE"] and the entry's position [j] in the
    full unfiltered feed is at least 3; under the [ALL] filter the two
    positions coincide, so there position [p] is obscured iff the plan is
    FREE and [p >= 3]; a plan other than FREE obscures nothing. *)
Theorem C1_gate_full_feed_position (plan : jsstr) (filter : string)
    (sigs : list Signal) (nid : option Z) :
  NoDup (map ref sigs) ->
  (forall p j item,
      nth_error (filtered filter sigs) p = Some item ->
      nth_error sigs j = Some item ->
      obscured_at (render_signals plan filter sigs nid) p =
      is_free plan && (3 <=? j)%nat) /\
  (forall p, (p < List.length sigs)%nat ->
      obscured_at (render_signals plan "ALL" sigs nid) p =
      is_free plan && (3 <=? p)%nat) /\
  (is_free plan = false ->
      forall p, obscured_at (render_signals plan filter sigs nid) p = false).
Proof.
  intros Hnd. split; [|split].
  - intros p j item Hp Hj. rewrite obscured_at_render, Hp.
    unfold isLocked. rewrite (indexOf_nth sigs item j Hnd Hj).
    destruct (is_free plan); [cbn [andb] | reflexivity].
    destruct (Nat.leb_spec 3 j); destruct (Z.leb_spec 3 (Z.of_nat j)); first [reflexivity | lia].
  - intros p Hp. rewrite obscured_at_render.
    change (filtered "ALL" sigs) with sigs.
    destruct (nth_error sigs p) as [item|] eqn:E.
    + unfold isLocked. rewrite (indexOf_nth sigs item p Hnd E).
      destruct (is_free plan); [cbn [andb] | reflexivity].
      destruct (Nat.leb_spec 3 p); destruct (Z.leb_spec 3 (Z.of_nat p)); first [reflexivity | lia].
    + apply nth_error_None in E. lia.
  - intros Hf p. rewrite obscured_at_render.
    destruct (nth_error (filtered filter sigs) p); auto.
    unfold isLocked. rewrite Hf. reflexivity.
Qed.

Lemma C1_gate_full_feed_position_witness :
  NoDup (map ref feed5) /\
  obscured_at (render_signals (Some "FREE") "SELL" feed5 None) 0 = true.
Proof.
  assert (Hnd : NoDup (map ref feed5)) by (simpl; repeat constructor; simpl; intuition discriminate).
  split; [exact Hnd|].
  destruct (C1_gate_full_feed_position (Some "FREE") "SELL" feed5 None Hnd)
    as [H _].
  rewrite (H 0%nat 3%nat sig_d); reflexivity.
Defined.

(** ** Feed synchronizer *)

Lemma signals_load_success (plan : jsstr) (s : sig_state) (now : Z)
    (r : http_response (list Signal)) (data : list Signal) :
  fetchJSON r = Some data ->
  final_state (useSignals_load plan) [(now, r)] s =
  set_sig_loading false (set_lastFetched now (signals_updater data s)).
Proof. intros H. unfold final_state. simpl. rewrite H. reflexivity. Qed.

Lemma find_first {A} (f : A -> bool) (l : list A) (k : nat) (e : A) :
  nth_error l k = Some e -> f e = true ->
  (forall j e', (j < k)%nat -> nth_error l j = Some e' -> f e' = false) ->
  find f l = Some e.
Proof.
  revert k. induction l as [|x l IH]; intros k Hk He Hbefore.
  - destruct k; discriminate.
  - destruct k as [|k]; simpl in Hk.
    + injection Hk as ->. simpl. rewrite He. reflexivity.
    + simpl. rewrite (Hbefore 0%nat x ltac:(lia) eq_refl).
      apply (IH k Hk He). intros j e' Hj Hn.
      apply (Hbefore (S j) e'); [lia | exact Hn].
Qed.

Lemma find_all_false {A} (f : A -> bool) (l : list A) :
  (forall e, In e l -> f e = false) -> find f l = None.
Proof.
  induction l as [|x l IH]; intros H; simpl; auto.
  rewrite (H x (or_introl eq_refl)). apply IH. intros e He. apply H. right. exact He.
Qed.

Lemma existsb_eqb_In (x : Z) (l : list Z) :
  existsb (Z.eqb x) l = true <-> In x l.
Proof.
  rewrite existsb_exists. split.
  - intros [y [Hy Heq]]. apply Z.eqb_eq in Heq. subst. exact Hy.
  - intros Hx. exists x. split; [exact Hx | apply Z.eqb_refl].
Qed.

Lemma absent_pred (prev : list Signal) (e : Signal) :
  negb (existsb (Z.eqb (id e)) (map id prev)) = true <-> ~ In (id e) (map id prev).
Proof.
  rewrite negb_true_iff. split.
  - intros H Hin. apply existsb_eqb_In in Hin. congruence.
  - intros H. destruct (existsb (Z.eqb (id e)) (map id prev)) eqn:E; auto.
    apply existsb_eqb_In in E. contradiction.
Qed.

Example newest_4231 : newest [sig_1; sig_2; sig_3] [sig_4; sig_2; sig_3; sig_1] = Some sig_4.
Proof. reflexivity. Qed.

Example newest_123 : newest [sig_1; sig_2; sig_3] [sig_1; sig_2; sig_3] = None.
Proof. reflexivity. Qed.

(** C2: after a successful refresh the held feed is the fetched sequence,
    the flagged id is the first id of the new sequence (in its order)
    absent from the ids of the previous sequence, and when every id was
    already present no id is flagged ([newId] is not set). *)
Theorem C2_flag_first_absent (plan : jsstr) (s : sig_state) (now : Z)
    (r : http_response (list Signal)) (data : list Signal) :
  fetchJSON r = Some data ->
  signals (final_state (useSignals_load plan) [(now, r)] s) = data /\
  (forall k e,
      nth_error data k = Some e ->
      ~ In (id e) (map id (signals s)) ->
      (forall j e', (j < k)%nat -> nth_error data j = Some e' ->
                    In (id e') (map id (signals s))) ->
      newId (final_state (useSignals_load plan) [(now, r)] s) = Some (id e)) /\
  ((forall e, In e data -> In (id e) (map id (signals s))) ->
   newId (final_state (useSignals_load plan) [(now, r)] s) = newId s).
Proof.
  intros Hr. rewrite (signals_load_success plan s now r data Hr).
  unfold signals_updater, newest. simpl. split; [reflexivity | split].
  - intros k e Hk Habs Hbefore.
    rewrite (find_first _ data k e Hk).
    + reflexivity.
    + apply absent_pred. exact Habs.
    + intros j e' Hj Hn. apply negb_false_iff.
      apply existsb_eqb_In. exact (Hbefore j e' Hj Hn).
  - intros Hall. rewrite find_all_false; [reflexivity|].
    intros e He. apply negb_false_iff. apply existsb_eqb_In. exact (Hall e He).
Qed.

Lemma C2_flag_first_absent_witness :
  newId (final_state (useSignals_load (Some "FREE"))
           [(0%Z, Resp true (Some [sig_4; sig_2; sig_3; sig_1]))]
           (mkSig [sig_1; sig_2; sig_3] false None None [])) = Some 4%Z /\
  newId (final_state (useSignals_load (Some "FREE"))
           [(0%Z, Resp true (Some [sig_1; sig_2; sig_3]))]
           (mkSig [sig_1; sig_2; sig_3] false None None [])) = None.
Proof.
  split.
  - destruct (C2_flag_first_absent (Some "FREE") (mkSig [sig_1; sig_2; sig_3] false None None [])
                0%Z (Resp true (Some [sig_4; sig_2; sig_3; sig_1]))
                [sig_4; sig_2; sig_3; sig_1] eq_refl) as [_ [H _]].
    apply (H 0%nat sig_4 eq_refl).
    + simpl. intuition discriminate.
    + intros j e' Hj. lia.
  - destruct (C2_flag_first_absent (Some "FREE") (mkSig [sig_1; sig_2; sig_3] false None None [])
                0%Z (Resp true (Some [sig_1; sig_2; sig_3]))
                [sig_1; sig_2; sig_3] eq_refl) as [_ [_ H]].
    rewrite H; [reflexivity|].
    intros e He. simpl in He |- *. intuition (subst; simpl; auto).
Defined.

(** C10: while the held feed is still empty (as after mount), a
    successful fetch of a non-empty sequence flags the id of its first
    entry, and under the ALL filter that entry is rendered as an
    unlocked card marked new. *)
Theorem C10_first_fetch_flags_head (plan : jsstr) (s : sig_state) (now : Z)
    (r : http_response (list Signal)) (e : Signal) (rest : list Signal) :
  signals s = [] ->
  fetchJSON r = Some (e :: rest) ->
  newId (final_state (useSignals_load plan) [(now, r)] s) = Some (id e) /\
  nth_error (render_signals plan "ALL" (e :: rest)
               (newId (final_state (useSignals_load plan) [(now, r)] s))) 0
  = Some (SignalCard (id e) true).
Proof.
  intros Hs Hr. rewrite (signals_load_success plan s now r (e :: rest) Hr).
  unfold signals_updater, newest. rewrite Hs. simpl. split; [reflexivity|].
  unfold render_signals, isLocked, indexOf. simpl.
  rewrite Nat.eqb_refl, Z.eqb_refl, andb_false_r. reflexivity.
Qed.

Lemma C10_first_fetch_flags_head_witness :
  newId (final_state (useSignals_load (Some "FREE"))
           [(0%Z, Resp true (Some [sig_1; sig_2]))] useSignals_init) = Some 1%Z.
Proof.
  apply (C10_first_fetch_flags_head (Some "FREE") useSignals_init 0%Z
           (Resp true (Some [sig_1; sig_2])) sig_1 [sig_2] eq_refl eq_refl).
Defined.

(** ** Polling lifecycle of a hook whose [load] awaits one request *)

Section Lifecycle.
Variables (S R D : Type) (req : D -> request) (k : R -> prog S R).
Hypothesis k_no_fetch : forall r, no_fetch (k r) = true.
Local Abbreviation load := (fun d : D => Fetch (req d) k).
Local Abbreviation inflight_k := (@inflight_ok S R D k).

Lemma exec_no_fetch (p : prog S R) (c : config S R D) :
  no_fetch p = true ->
  exec p c = mkConfig (if alive c then final_state p [] (st c) else st c)
                      (timer c) (pending c) (issued c) (alive c).
Proof.
  revert c. induction p as [|f p IH|q' k' IH]; intros c Hp; simpl in Hp.
  - destruct c as [? ? ? ? []]; reflexivity.
  - destruct c as [? ? ? ? []]; simpl; rewrite (IH _ Hp); reflexivity.
  - discriminate.
Qed.

Lemma Forall_remove_nth {A} (P : A -> Prop) (n : nat) (l : list A) :
  Forall P l -> Forall P (remove_nth n l).
Proof.
  revert n. induction l as [|x l IH]; intros n H; destruct n; simpl; auto.
  - inversion H; auto.
  - inversion H; subst. constructor; auto.
Qed.

Lemma length_remove_nth {A} (n : nat) (l : list A) :
  (List.length (remove_nth n l) <= List.length l)%nat.
Proof.
  revert n. induction l as [|x l IH]; intros n; destruct n; simpl; auto.
  specialize (IH n). lia.
Qed.

Lemma pending_is_k (c : config S R D) (n : nat) (k' : R -> prog S R) :
  inflight_k c -> nth_error (pending c) n = Some k' -> k' = k.
Proof.
  intros H E. apply nth_error_In in E. unfold inflight_ok in H.
  rewrite Forall_forall in H. apply H; auto.
Qed.

Lemma step_inflight_ok (c : config S R D) (e : event R D) :
  inflight_k c -> inflight_k (step load c e).
Proof.
  unfold inflight_ok. intros H. destruct e as [|n r|d|]; simpl.
  - destruct (timer c); simpl; auto.
    apply Forall_app. split; auto.
  - destruct (nth_error (pending c) n) as [k'|] eqn:E; auto.
    rewrite (pending_is_k c n k' H E).
    rewrite (exec_no_fetch _ _ (k_no_fetch r)). simpl.
    apply Forall_remove_nth; auto.
  - destruct (alive c); simpl; auto.
    apply Forall_app. split; auto.
  - exact H.
Qed.

Lemma run_events_inflight_ok (c : config S R D) (tr : list (event R D)) :
  inflight_k c -> inflight_k (run_events load c tr).
Proof.
  revert c. induction tr as [|e tr IH]; intros c H; simpl; auto.
  apply IH. apply step_inflight_ok. exact H.
Qed.

Lemma mount_inflight_ok (d : D) (s0 : S) : inflight_k (mount load d s0).
Proof. unfold inflight_ok, mount. simpl. repeat constructor. Qed.

Lemma reachable_inflight_ok (d : D) (s0 : S) (tr : list (event R D)) :
  inflight_k (run_events load (mount load d s0) tr).
Proof. apply run_events_inflight_ok, mount_inflight_ok. Qed.

(** Delivering the response of an awaiting attempt runs the rest of
    [load] on the current state while the component is mounted, and
    changes nothing once it is unmounted. *)
Lemma deliver_state (c : config S R D) (n : nat) (r : R) :
  inflight_k c ->
  st (step load c (Deliver n r)) =
  match nth_error (pending c) n with
  | Some _ => if alive c then final_state (k r) [] (st c) else st c
  | None => st c
  end.
Proof.
  intros H. simpl. destruct (nth_error (pending c) n) as [k'|] eqn:E; auto.
  rewrite (pending_is_k c n k' H E).
  rewrite (exec_no_fetch _ _ (k_no_fetch r)). reflexivity.
Qed.

(** Once unmounted, no event issues a request, re-arms a timer or
    changes the state. *)
Lemma after_unmount_quiet (c : config S R D) (tr : list (event R D)) :
  inflight_k c -> alive c = false -> timer c = None ->
  st (run_events load c tr) = st c /\
  issued (run_events load c tr) = issued c /\
  timer (run_events load c tr) = None /\
  alive (run_events load c tr) = false.
Proof.
  revert c. induction tr as [|e tr IH]; intros c H Ha Ht; simpl; [auto|].
  assert (Hs : st (step load c e) = st c /\ issued (step load c e) = issued c /\
               timer (step load c e) = None /\ alive (step load c e) = false).
  { destruct e as [|n r|d|]; simpl.
    - rewrite Ht. auto.
    - destruct (nth_error (pending c) n) as [k'|] eqn:E; [|auto].
      rewrite (pending_is_k c n k' H E).
      rewrite (exec_no_fetch _ _ (k_no_fetch r)). simpl. rewrite Ha. auto.
    - rewrite Ha. auto.
    - auto. }
  destruct Hs as [Hst [Hi [Ht' Ha']]].
  destruct (IH (step load c e) (step_inflight_ok c e H) Ha' Ht') as [A [B [C E]]].
  rewrite A, B, Hst, Hi. auto.
Qed.

End Lifecycle.

(** ** Poller instances: stale-on-error and teardown *)

Lemma load_set_no_fetch {T} (path msg : string) (r : http_response T) :
  no_fetch (load_cont (@load_set T path msg) r) = true.
Proof. simpl. destruct (fetchJSON r); reflexivity. Qed.

(** The continuation of [useSignals]' [load] does not depend on [plan]. *)
Definition useSignals_cont : sig_resp -> prog sig_state sig_resp :=
  load_cont (useSignals_load None).

Lemma useSignals_no_fetch (r : sig_resp) : no_fetch (useSignals_cont r) = true.
Proof. destruct r as [now r]. unfold useSignals_cont. simpl. destruct (fetchJSON r); reflexivity. Qed.

Lemma load_set_eta {T} (path msg : string) :
  const_load (@load_set T path msg) =
  fun _ : unit => Fetch (load_req (@load_set T path msg)) (load_cont (@load_set T path msg)).
Proof. reflexivity. Qed.

Lemma useSignals_eta :
  useSignals_load = fun p => Fetch (load_req (useSignals_load p)) useSignals_cont.
Proof. reflexivity. Qed.

(** A failed attempt of an interval hook built on [load_set], delivered
    in any reachable configuration, only logs and clears [loading] (or
    does nothing once the component is unmounted). *)
Lemma load_set_failed_attempt {T} (path msg : string) (s0 : poll_state T)
    (tr : list (event (http_response T) unit)) (n : nat) (r : http_response T) :
  fetchJSON r = None ->
  let L := const_load (load_set path msg) in
  st (step L (run_events L (mount L tt s0) tr) (Deliver n r)) =
  st (run_events L (mount L tt s0) tr) \/
  st (step L (run_events L (mount L tt s0) tr) (Deliver n r)) =
  set_loading false (add_log msg (st (run_events L (mount L tt s0) tr))).
Proof.
  intros Hr L. unfold L. rewrite load_set_eta.
  rewrite (deliver_state _ _ _ _ _ (load_set_no_fetch path msg)).
  2: apply reachable_inflight_ok, load_set_no_fetch.
  destruct (nth_error _ n); [|left; reflexivity].
  destruct (alive _); [right | left; reflexivity].
  unfold final_state. simpl. rewrite Hr. reflexivity.
Qed.

(** C3: in every hook a failed fetch attempt leaves the held data as it
    was: for the interval hooks (signals, markets, chart data), in any
    configuration reached after mount by any interleaving of timer ticks,
    settlements, changes of [plan] and unmounting, delivering a failed
    response changes nothing but the error log (one entry) and the
    [loading] flag; the watchlist's [load] likewise only logs and clears
    [loading]. *)
Theorem C3_failed_attempt_keeps_data :
  (forall plan0 s0 tr n now r,
      fetchJSON r = None ->
      st (step useSignals_load
            (run_events useSignals_load (mount useSignals_load plan0 s0) tr)
            (Deliver n (now, r))) =
      st (run_events useSignals_load (mount useSignals_load plan0 s0) tr) \/
      st (step useSignals_load
            (run_events useSignals_load (mount useSignals_load plan0 s0) tr)
            (Deliver n (now, r))) =
      set_sig_loading false (add_sig_log "Failed to fetch signals:"
        (st (run_events useSignals_load (mount useSignals_load plan0 s0) tr)))) /\
  (forall s0 tr n r,
      fetchJSON r = None ->
      let L := const_load useMarkets_load in
      st (step L (run_events L (mount L tt s0) tr) (Deliver n r)) =
      st (run_events L (mount L tt s0) tr) \/
      st (step L (run_events L (mount L tt s0) tr) (Deliver n r)) =
      set_loading false (add_log "Failed to fetch markets:"
        (st (run_events L (mount L tt s0) tr)))) /\
  (forall s0 tr n r,
      fetchJSON r = None ->
      let L := const_load useChartData_load in
      st (step L (run_events L (mount L tt s0) tr) (Deliver n r)) =
      st (run_events L (mount L tt s0) tr) \/
      st (step L (run_events L (mount L tt s0) tr) (Deliver n r)) =
      set_loading false (add_log "Failed to fetch chart data:"
        (st (run_events L (mount L tt s0) tr)))) /\
  (forall s r,
      fetchJSON r = None ->
      final_state useWatchlist_load [r] s =
      set_loading false (add_log "Failed to fetch watchlist:" s)).
Proof.
  split; [|split; [|split]].
  - intros plan0 s0 tr n now r Hr. rewrite useSignals_eta.
    rewrite (deliver_state _ _ _ _ _ useSignals_no_fetch).
    2: apply reachable_inflight_ok, useSignals_no_fetch.
    destruct (nth_error _ n); [|left; reflexivity].
    destruct (alive _); [right | left; reflexivity].
    unfold final_state, useSignals_cont. simpl. rewrite Hr. reflexivity.
  - intros. apply load_set_failed_attempt. assumption.
  - intros. apply load_set_failed_attempt. assumption.
  - intros s r Hr. unfold final_state. simpl. rewrite Hr. reflexivity.
Qed.

Lemma C3_failed_attempt_keeps_data_witness :
  held (st (step (const_load useMarkets_load)
              (run_events (const_load useMarkets_load)
                 (mount (const_load useMarkets_load) tt useMarkets_init)
                 [Deliver 0 (Resp true (Some ov_old)); Tick])
              (Deliver 0 NetErr))) = ov_old /\
  signals (st (step useSignals_load
                 (run_events useSignals_load (mount useSignals_load (Some "FREE") useSignals_init)
                    [Deliver 0 (1%Z, Resp true (Some [sig_1])); Rerun (Some "PRO")])
                 (Deliver 0 (2%Z, NetErr)))) = [sig_1].
Proof.
  destruct C3_failed_attempt_keeps_data as [Hs [Hm _]]. split.
  - destruct (Hm useMarkets_init [Deliver 0 (Resp true (Some ov_old)); Tick] 0%nat NetErr eq_refl)
      as [E | E]; rewrite E; reflexivity.
  - destruct (Hs (Some "FREE") useSignals_init
                [Deliver 0 (1%Z, Resp true (Some [sig_1])); Rerun (Some "PRO")]
                0%nat 2%Z NetErr eq_refl)
      as [E | E]; rewrite E; vm_compute; reflexivity.
Defined.

(** C9, as stated, fails: when [plan] changes, the cleanup of
    [useSignals]' effect clears the interval, yet the attempt started for
    the old plan still applies its result when it settles afterwards. *)
Lemma C9_counterexample :
  ~ (forall plan0 s0 tr e n r,
        (e = Unmount \/ exists d, e = Rerun d) ->
        (n < List.length (pending (run_events useSignals_load
                                      (mount useSignals_load plan0 s0) tr)))%nat ->
        st (step useSignals_load
              (step useSignals_load
                 (run_events useSignals_load (mount useSignals_load plan0 s0) tr) e)
              (Deliver n r)) =
        st (step useSignals_load
              (run_events useSignals_load (mount useSignals_load plan0 s0) tr) e)).
Proof.
  intros H.
  specialize (H (Some "FREE") useSignals_init [] (Rerun (Some "PRO")) 0%nat
                (0%Z, Resp true (Some [sig_1]))).
  specialize (H (or_intror (ex_intro _ (Some "PRO") eq_refl)) ltac:(simpl; lia)).
  apply (f_equal signals) in H. vm_compute in H. discriminate H.
Qed.

(** C9 (amended): for a polling effect whose [load] awaits one request,
    once the component is unmounted no event issues a request, registers
    an interval or changes the state, so a late result is dropped; when
    the dependencies change while it is mounted, the old interval is
    replaced by one for the new dependencies, and an attempt that was
    awaiting its response at the cleanup, when it settles, still runs the
    rest of [load] on the current state (no cancellation). *)
Theorem C9_cleanup_stops_timer_not_inflight {S R D} (req : D -> request)
    (k : R -> prog S R) (d0 d' : D) (s0 : S) (tr1 tr2 : list (event R D)) :
  (forall r, no_fetch (k r) = true) ->
  let L := fun d => Fetch (req d) k in
  let c := run_events L (mount L d0 s0) tr1 in
  (st (run_events L (step L c Unmount) tr2) = st c /\
   issued (run_events L (step L c Unmount) tr2) = issued c /\
   timer (run_events L (step L c Unmount) tr2) = None) /\
  (alive c = true ->
   timer (step L c (Rerun d')) = Some d' /\
   issued (step L c (Rerun d')) = (issued c ++ [req d'])%list /\
   issued (step L (step L c (Rerun d')) Tick) = (issued c ++ [req d'; req d'])%list /\
   (forall n r, (n < List.length (pending c))%nat ->
      st (step L (step L c (Rerun d')) (Deliver n r)) =
      final_state (k r) [] (st (step L c (Rerun d'))))).
Proof.
  intros Hk. cbv zeta.
  set (L := fun d => Fetch (req d) k).
  set (c := run_events L (mount L d0 s0) tr1).
  assert (Hinv : inflight_ok k c) by apply reachable_inflight_ok, Hk.
  split.
  - destruct (after_unmount_quiet S R D req k Hk (step L c Unmount) tr2
                (step_inflight_ok S R D req k Hk c Unmount Hinv) eq_refl eq_refl)
      as [A [B [C _]]].
    unfold L in *. rewrite A, B, C. auto.
  - intros Ha. unfold L in *.
    assert (Hc' : step (fun d => Fetch (req d) k) c (Rerun d') =
                  mkConfig (st c) (Some d') (pending c ++ [k]) (issued c ++ [req d'])
                           (alive c)) by (simpl; rewrite Ha; reflexivity).
    rewrite Hc'. split; [reflexivity | split; [reflexivity | split]].
    { simpl. rewrite <- app_assoc. reflexivity. }
    intros n r Hn.
    assert (Hinv' : inflight_ok k (mkConfig (st c) (Some d') (pending c ++ [k])
                                            (issued c ++ [req d']) (alive c))).
    { rewrite <- Hc'. apply step_inflight_ok; assumption. }
    rewrite (deliver_state S R D req k Hk _ n r Hinv'). simpl.
    rewrite nth_error_app1 by exact Hn.
    destruct (nth_error (pending c) n) eqn:E.
    + rewrite Ha. reflexivity.
    + apply nth_error_None in E. lia.
Qed.

Lemma C9_cleanup_stops_timer_not_inflight_witness :
  signals (st (step useSignals_load
                 (step useSignals_load
                    (run_events useSignals_load
                       (mount useSignals_load (Some "FREE") useSignals_init) [])
                    (Rerun (Some "PRO")))
                 (Deliver 0 (0%Z, Resp true (Some [sig_1]))))) = [sig_1] /\
  held (st (run_events (const_load useMarkets_load)
              (step (const_load useMarkets_load)
                 (run_events (const_load useMarkets_load)
                    (mount (const_load useMarkets_load) tt useMarkets_init)
                    [Deliver 0 (Resp true (Some ov_old)); Tick])
                 Unmount)
              [Deliver 0 (Resp true (Some ov_new))])) = ov_old.
Proof.
  split.
  - rewrite useSignals_eta.
    destruct (C9_cleanup_stops_timer_not_inflight
                (fun p => load_req (useSignals_load p)) useSignals_cont
                (Some "FREE") (Some "PRO") useSignals_init [] [] useSignals_no_fetch)
      as [_ H].
    destruct (H eq_refl) as [_ [_ [_ Hd]]].
    rewrite Hd; [reflexivity | simpl; lia].
  - destruct (C9_cleanup_stops_timer_not_inflight
                (fun _ : unit => load_req useMarkets_load) (load_cont useMarkets_load)
                tt tt useMarkets_init [Deliver 0 (Resp true (Some ov_old)); Tick]
                [Deliver 0 (Resp true (Some ov_new))] (load_set_no_fetch _ _))
      as [[H _] _].
    refine (eq_trans (f_equal held H) _). reflexivity.
Defined.

(** ** Enrollment flow *)

Lemma is_empty_false (s : jstring) : s <> [] -> is_empty s = false.
Proof. destruct s; [contradiction | reflexivity]. Qed.

Example submit_empty_email :
  run (handleBetaSubmit (setBetaEmail [] beta_form_sample)) []
      (setBetaEmail [] beta_form_sample) =
  (setBetaError msg_missing_fields (setBetaEmail [] beta_form_sample), [], true).
Proof. reflexivity. Qed.

(** C5: in the DETAILS step, a blank name or e-mail sets the validation
    error, keeps the step and issues no request; otherwise one signup
    request is issued, and if it fails the step stays DETAILS with
    [submitting] cleared and the error taken from the response's
    [detail] or a generic fallback; if it succeeds the code is cleared
    and the step becomes VERIFY. *)
Theorem C5_details_submit (s : beta_state) (r : beta_resp) :
  betaStep s = form ->
  ((trim (betaName s) = [] \/ trim (betaEmail s) = []) ->
     requests (handleBetaSubmit s) [r] s = [] /\
     betaStep (final_state (handleBetaSubmit s) [r] s) = form /\
     betaError (final_state (handleBetaSubmit s) [r] s) = msg_missing_fields) /\
  (trim (betaName s) <> [] -> trim (betaEmail s) <> [] ->
     requests (handleBetaSubmit s) [r] s =
       [POST "/api/beta-signup" [("name", trim (betaName s));
                                 ("email", trim (betaEmail s));
                                 ("plan", js (betaChoice s))]] /\
     (request_ok r = false ->
        betaStep (final_state (handleBetaSubmit s) [r] s) = form /\
        betaSubmitting (final_state (handleBetaSubmit s) [r] s) = false /\
        (betaError (final_state (handleBetaSubmit s) [r] s) = msg_wrong \/
         exists b d, r = Resp false (Some b) /\ detail b = Some d /\ d <> "" /\
                     betaError (final_state (handleBetaSubmit s) [r] s) = d)) /\
     (request_ok r = true ->
        betaOtp (final_state (handleBetaSubmit s) [r] s) = [] /\
        betaStep (final_state (handleBetaSubmit s) [r] s) = verify /\
        betaSubmitting (final_state (handleBetaSubmit s) [r] s) = false /\
        betaError (final_state (handleBetaSubmit s) [r] s) = "")).
Proof.
  intros Hstep. unfold requests, final_state, handleBetaSubmit. split.
  - intros Hblank.
    assert (E : (is_empty (trim (betaName s)) || is_empty (trim (betaEmail s))) = true).
    { destruct Hblank as [H|H]; rewrite H; simpl; auto using orb_true_r. }
    rewrite E. simpl. auto.
  - intros Hn He.
    rewrite (is_empty_false _ Hn), (is_empty_false _ He).
    destruct r as [|[|] [b|]]; simpl;
      (split; [reflexivity | split]); intros Hok; try discriminate; auto.
    split; [auto | split; [auto |]].
    unfold js_or. destruct (detail b) as [d|] eqn:Ed; [|auto].
    destruct (String.eqb_spec d ""); [auto|].
    right. exists b, d. auto.
Qed.

Lemma C5_details_submit_witness :
  requests (handleBetaSubmit (setBetaEmail (js "  ") beta_form_sample)) [NetErr]
    (setBetaEmail (js "  ") beta_form_sample) = [] /\
  betaStep (final_state (handleBetaSubmit beta_form_sample)
              [Resp true None] beta_form_sample) = verify.
Proof.
  split.
  - apply (C5_details_submit (setBetaEmail (js "  ") beta_form_sample) NetErr eq_refl).
    right. reflexivity.
  - apply (C5_details_submit beta_form_sample (Resp true None) eq_refl).
    + vm_compute. discriminate.
    + vm_compute. discriminate.
    + reflexivity.
Defined.

(** C4: in the VERIFY step with a code entered, one verify request is
    issued; a successful response (ok, with a JSON body) moves the flow
    to DONE and sets the active plan to the body's [plan], whatever tier
    was chosen; any failure keeps the step VERIFY and the plan, clears
    [submitting] and sets the error from the response's [detail] or a
    generic fallback. *)
Theorem C4_verify_outcome (s : beta_state) (r : beta_resp) :
  betaStep s = verify ->
  trim (betaOtp s) <> [] ->
  requests (handleBetaVerify s) [r] s =
    [POST "/api/beta-verify" [("email", trim (betaEmail s)); ("code", trim (betaOtp s))]] /\
  (forall b, r = Resp true (Some b) ->
     betaStep (final_state (handleBetaVerify s) [r] s) = done /\
     plan (final_state (handleBetaVerify s) [r] s) = body_plan b /\
     betaSubmitting (final_state (handleBetaVerify s) [r] s) = false /\
     betaError (final_state (handleBetaVerify s) [r] s) = "") /\
  ((forall b, r <> Resp true (Some b)) ->
     betaStep (final_state (handleBetaVerify s) [r] s) = verify /\
     plan (final_state (handleBetaVerify s) [r] s) = plan s /\
     betaSubmitting (final_state (handleBetaVerify s) [r] s) = false /\
     (betaError (final_state (handleBetaVerify s) [r] s) = msg_wrong \/
      betaError (final_state (handleBetaVerify s) [r] s) = msg_invalid_code \/
      exists b d, r = Resp false (Some b) /\ detail b = Some d /\ d <> "" /\
                  betaError (final_state (handleBetaVerify s) [r] s) = d)).
Proof.
  intros Hstep Hotp.
  unfold requests, final_state, handleBetaVerify. rewrite (is_empty_false _ Hotp).
  destruct r as [|[|] [b|]]; simpl; (split; [reflexivity | split]);
    intros H; try (exfalso; eapply H; reflexivity); try discriminate;
    rewrite ?Hstep; auto.
  - intros E. injection E as <-. auto.
  - split; [auto | split; [auto | split; [auto |]]].
    unfold js_or. destruct (detail b) as [d|] eqn:Ed; [|auto].
    destruct (String.eqb_spec d ""); [auto|].
    right. right. exists b, d. auto.
Qed.

Lemma C4_verify_outcome_witness :
  plan (final_state (handleBetaVerify beta_verify_sample)
          [Resp true (Some (mkBetaBody None (Some "ELITE")))] beta_verify_sample)
  = Some "ELITE".
Proof.
  assert (Hotp : trim (betaOtp beta_verify_sample) <> []) by (vm_compute; discriminate).
  destruct (C4_verify_outcome beta_verify_sample
              (Resp true (Some (mkBetaBody None (Some "ELITE")))) eq_refl Hotp)
    as [_ [H _]].
  apply (H (mkBetaBody None (Some "ELITE")) eq_refl).
Defined.

(** C6, as stated, fails: reopening the flow after ELITE was chosen
    leaves [betaChoice] at ELITE rather than clearing it. *)
Lemma C6_counterexample :
  ~ (forall s,
        betaStep (final_state openUpgrade [] s) = pick /\
        betaChoice (final_state openUpgrade [] s) = betaChoice beta_init /\
        betaName (final_state openUpgrade [] s) = [] /\
        betaEmail (final_state openUpgrade [] s) = [] /\
        betaOtp (final_state openUpgrade [] s) = [] /\
        betaError (final_state openUpgrade [] s) = "").
Proof.
  intros H. destruct (H beta_form_sample) as [_ [Hc _]].
  vm_compute in Hc. discriminate Hc.
Qed.

(** C6 (amended): reopening the flow from any state sets the step to
    SELECT ("pick"), clears the contact name, e-mail, code and error and
    shows the modal; the chosen tier (and the [submitting] flag and the
    active plan) are left as they were.  Picking a plan card sets the
    tier and moves to DETAILS; [← Resend code] also moves to DETAILS and
    leaves the tier as it is. *)
Theorem C6_reset_fields (s : beta_state) :
  betaStep (final_state openUpgrade [] s) = pick /\
  betaName (final_state openUpgrade [] s) = [] /\
  betaEmail (final_state openUpgrade [] s) = [] /\
  betaOtp (final_state openUpgrade [] s) = [] /\
  betaError (final_state openUpgrade [] s) = "" /\
  showUpgrade (final_state openUpgrade [] s) = true /\
  betaChoice (final_state openUpgrade [] s) = betaChoice s /\
  betaSubmitting (final_state openUpgrade [] s) = betaSubmitting s /\
  plan (final_state openUpgrade [] s) = plan s /\
  (forall p,
      betaChoice (final_state (pickPlan p) [] (final_state openUpgrade [] s)) = p /\
      betaStep (final_state (pickPlan p) [] (final_state openUpgrade [] s)) = form) /\
  betaStep (final_state resendCode [] s) = form /\
  betaChoice (final_state resendCode [] s) = betaChoice s.
Proof. repeat split. Qed.

(** ** Watchlist store *)

Example add_bhp :
  requests (handleAddTicker (view_sample (js "bhp.ax"))) [] (view_sample (js "bhp.ax")) =
  [POST "/api/watchlist" [("ticker", js "BHP.AX"); ("name", js "BHP.AX")]].
Proof. vm_compute. reflexivity. Qed.

Example add_blank :
  run (handleAddTicker (view_sample (js " "))) [] (view_sample (js " ")) =
  (view_sample (js " "), [], true).
Proof. vm_compute. reflexivity. Qed.

(** A no-break space alone is blank: [trim] removes it. *)
Example add_nbsp :
  run (handleAddTicker (view_sample [160%N])) [] (view_sample [160%N]) =
  (view_sample [160%N], [], true).
Proof. vm_compute. reflexivity. Qed.

(** Upper-casing follows Unicode: "straße" becomes "STRASSE". *)
Example add_sharp_s :
  requests (handleAddTicker (view_sample [115; 116; 114; 97; 223; 101]%N)) []
    (view_sample [115; 116; 114; 97; 223; 101]%N) =
  [POST "/api/watchlist" [("ticker", js "STRASSE"); ("name", js "STRASSE")]].
Proof. vm_compute. reflexivity. Qed.

(** C7: adding from the watchlist tab trims and uppercases the input;
    when nothing is left the handler returns at once, issuing no request
    and changing no state; otherwise its first request creates the
    normalized ticker. *)
Theorem C7_add_normalizes (v : view_state) (rs : list wl_resp) :
  (toUpperCase (trim (tickerInput v)) = [] ->
     requests (handleAddTicker v) rs v = [] /\
     final_state (handleAddTicker v) rs v = v) /\
  (toUpperCase (trim (tickerInput v)) <> [] ->
     requests (handleAddTicker v) [] v =
       [POST "/api/watchlist" [("ticker", toUpperCase (trim (tickerInput v)));
                               ("name", toUpperCase (trim (tickerInput v)))]]) /\
  requests (handleAddTicker (view_sample (js "bhp.ax"))) [] (view_sample (js "bhp.ax")) =
    [POST "/api/watchlist" [("ticker", js "BHP.AX"); ("name", js "BHP.AX")]].
Proof.
  unfold requests, final_state, handleAddTicker. split; [|split].
  - intros H. rewrite H. simpl. auto.
  - intros H. rewrite (is_empty_false _ H). reflexivity.
  - vm_compute. reflexivity.
Qed.

Lemma C7_add_normalizes_witness :
  requests (handleAddTicker (view_sample [160%N])) [] (view_sample [160%N]) = [].
Proof.
  apply (C7_add_normalizes (view_sample [160%N]) []). vm_compute. reflexivity.
Defined.

(** C8, as stated, fails: a [DELETE] answered [204 No Content] succeeds,
    but its empty body makes [res.json()] reject, so [fetchJSON] throws
    and no reload follows. *)
Lemma C8_counterexample :
  ~ (forall (t : string) (s : wl_state) (r1 r2 : wl_resp),
        request_ok r1 = true ->
        requests (removeTicker t) [r1; r2] s =
          [DELETE ("/api/watchlist/" ++ t); GET "/api/watchlist"]).
Proof.
  intros H. specialize (H "BHP.AX" useWatchlist_init (Resp true None) NetErr eq_refl).
  vm_compute in H. discriminate H.
Qed.

(** C8 (amended): a watchlist mutation whose [fetchJSON] resolves (an ok
    response with a JSON body) is followed by a reload
    ([GET /api/watchlist]) and the held list becomes the reload's result
    (or stays as it was when the reload fails); a mutation whose
    [fetchJSON] throws (network error, non-ok status, or an ok response
    whose body is not JSON) issues nothing more, keeps the held list and
    logs.  The list is never patched locally. *)
Theorem C8_mutation_then_reload (s : wl_state) (t n : jstring) (t' : string)
    (r1 r2 : wl_resp) :
  (fetchJSON r1 = None ->
     requests (addTicker t n) [r1; r2] s = [POST "/api/watchlist" [("ticker", t); ("name", n)]] /\
     held (final_state (addTicker t n) [r1; r2] s) = held s /\
     log (final_state (addTicker t n) [r1; r2] s) = (log s ++ ["Failed to add ticker:"])%list) /\
  (forall d, fetchJSON r1 = Some d ->
     requests (addTicker t n) [r1; r2] s =
       [POST "/api/watchlist" [("ticker", t); ("name", n)]; GET "/api/watchlist"] /\
     held (final_state (addTicker t n) [r1; r2] s) =
       match fetchJSON r2 with Some d' => d' | None => held s end) /\
  (fetchJSON r1 = None ->
     requests (removeTicker t') [r1; r2] s = [DELETE ("/api/watchlist/" ++ t')] /\
     held (final_state (removeTicker t') [r1; r2] s) = held s /\
     log (final_state (removeTicker t') [r1; r2] s) = (log s ++ ["Failed to remove ticker:"])%list) /\
  (forall d, fetchJSON r1 = Some d ->
     requests (removeTicker t') [r1; r2] s =
       [DELETE ("/api/watchlist/" ++ t'); GET "/api/watchlist"] /\
     held (final_state (removeTicker t') [r1; r2] s) =
       match fetchJSON r2 with Some d' => d' | None => held s end).
Proof.
  unfold requests, final_state, addTicker, removeTicker.
  split; [|split; [|split]]; intros.
  - simpl. rewrite H. simpl. auto.
  - simpl. rewrite H. simpl. destruct (fetchJSON r2); auto.
  - simpl. rewrite H. simpl. auto.
  - simpl. rewrite H. simpl. destruct (fetchJSON r2); auto.
Qed.

Definition bhp_item := mkWatchItem "BHP.AX" "BHP.AX" None None.

Lemma C8_mutation_then_reload_witness :
  held (final_state (addTicker (js "BHP.AX") (js "BHP.AX"))
          [Resp true (Some WOther); Resp true (Some (WList [bhp_item]))]
          useWatchlist_init) = WList [bhp_item] /\
  requests (removeTicker "BHP.AX") [Resp true None; NetErr]
    (mkPoll (WList [bhp_item]) false []) = [DELETE "/api/watchlist/BHP.AX"] /\
  held (final_state (removeTicker "BHP.AX") [Resp true None; NetErr]
          (mkPoll (WList [bhp_item]) false [])) = WList [bhp_item].
Proof.
  destruct (C8_mutation_then_reload useWatchlist_init (js "BHP.AX") (js "BHP.AX") "BHP.AX"
              (Resp true (Some WOther)) (Resp true (Some (WList [bhp_item]))))
    as [_ [H _]].
  destruct (C8_mutation_then_reload (mkPoll (WList [bhp_item]) false [])
              (js "BHP.AX") (js "BHP.AX") "BHP.AX" (Resp true None) NetErr)
    as [_ [_ [H' _]]].
  destruct (H WOther eq_refl) as [_ E].
  destruct (H' eq_refl) as [E1 [E2 _]].
  split; [exact E | split; [exact E1 | exact E2]].
Defined.

(* ================================================================== *)
(** * Further properties of the page and hooks *)

(** ** The code input and the keyboard shortcuts *)

Lemma digit_not_ws (u : N) : is_digit u = true -> is_ws u = false.
Proof.
  unfold is_digit. intros H. apply andb_prop in H as [H1 H2].
  apply N.leb_le in H1, H2.
  assert (u = 48 \/ u = 49 \/ u = 50 \/ u = 51 \/ u = 52 \/ u = 53 \/ u = 54 \/
          u = 55 \/ u = 56 \/ u = 57)%N as Hu by lia.
  repeat destruct Hu as [-> | Hu]; try reflexivity. subst. reflexivity.
Qed.

Lemma drop_ws_no_ws (l : jstring) :
  Forall (fun u => is_ws u = false) l -> drop_ws l = l.
Proof. intros H. destruct H as [|c l Hc _]; simpl; [reflexivity | rewrite Hc; reflexivity]. Qed.

Lemma trim_digits (l : jstring) :
  Forall (fun u => is_digit u = true) l -> trim l = l.
Proof.
  intros H.
  assert (Hw : Forall (fun u => is_ws u = false) l).
  { eapply Forall_impl; [|exact H]. intros c. apply digit_not_ws. }
  unfold trim. rewrite (drop_ws_no_ws l Hw).
  rewrite (drop_ws_no_ws (rev l)); [apply rev_involutive|].
  apply Forall_rev. exact Hw.
Qed.

Lemma Forall_firstn {A} (P : A -> Prop) (n : nat) (l : list A) :
  Forall P l -> Forall P (firstn n l).
Proof.
  revert l. induction n as [|n IH]; intros l H; [constructor|].
  destruct H; simpl; constructor; auto.
Qed.

Lemma Forall_filter_true {A} (f : A -> bool) (l : list A) :
  Forall (fun x => f x = true) (filter f l).
Proof. apply Forall_forall. intros x Hx. apply filter_In in Hx. apply Hx. Qed.

(** The code input only ever holds at most six ASCII digits, and
    re-sanitizing its value changes nothing. *)
Theorem otp_input_sanitized (v : jstring) :
  Forall (fun u => is_digit u = true) (sanitize_otp v) /\
  (List.length (sanitize_otp v) <= 6)%nat /\
  sanitize_otp (sanitize_otp v) = sanitize_otp v.
Proof.
  unfold sanitize_otp.
  assert (Hd : Forall (fun u => is_digit u = true) (firstn 6 (filter is_digit v)))
    by (apply Forall_firstn, Forall_filter_true).
  split; [exact Hd | split].
  - apply firstn_le_length.
  - rewrite (forallb_filter_id is_digit).
    + apply firstn_all2. apply firstn_le_length.
    + apply forallb_forall. intros x Hx. rewrite Forall_forall in Hd. auto.
Qed.

Lemma trim_sanitized (v : jstring) : trim (sanitize_otp v) = sanitize_otp v.
Proof.
  destruct (otp_input_sanitized v) as [Hd _]. apply trim_digits. exact Hd.
Qed.

(** Whatever is typed into the code input, pressing Enter in it sends
    exactly the sanitized code (ASCII digits only, at most six) with the
    trimmed e-mail, unless nothing is left, in which case no request is
    made and the missing-code error is shown. *)
Theorem otp_enter_sends_sanitized (s : beta_state) (v : jstring) (r : beta_resp) :
  let s1 := final_state (onOtpChange v) [] s in
  (sanitize_otp v <> [] ->
     requests (otpKeyDown "Enter" s1) [r] s1 =
       [POST "/api/beta-verify" [("email", trim (betaEmail s)); ("code", sanitize_otp v)]]) /\
  (sanitize_otp v = [] ->
     requests (otpKeyDown "Enter" s1) [r] s1 = [] /\
     betaError (final_state (otpKeyDown "Enter" s1) [r] s1) = msg_missing_code).
Proof.
  simpl. unfold requests, final_state, otpKeyDown, handleBetaVerify. simpl.
  rewrite trim_sanitized. split.
  - intros H. rewrite (is_empty_false _ H).
    destruct r as [|[|] [b|]]; reflexivity.
  - intros H. rewrite H. simpl. auto.
Qed.

(** "12-34a5678" with an Arabic-Indic digit one (U+0661) inserted. *)
Definition otp_typed : jstring := (js "12-34" ++ [1633%N] ++ js "a5678")%list.

Lemma otp_enter_sends_sanitized_witness :
  requests (otpKeyDown "Enter" (final_state (onOtpChange otp_typed) [] beta_verify_sample))
    [NetErr] (final_state (onOtpChange otp_typed) [] beta_verify_sample) =
  [POST "/api/beta-verify" [("email", js "ann@example.com"); ("code", js "123456")]].
Proof.
  apply (otp_enter_sends_sanitized beta_verify_sample otp_typed NetErr).
  vm_compute. discriminate.
Defined.

(** The Enter key bypasses the disabled buttons: with a non-blank code
    shorter than six digits (verify button disabled) Enter still sends
    the verify request, and while a signup is in flight (submit button
    disabled) Enter in the e-mail field sends another signup request. *)
Theorem enter_bypasses_disabled_buttons (s : beta_state) (r : beta_resp) :
  (verifyDisabled s = true -> trim (betaOtp s) <> [] ->
     requests (otpKeyDown "Enter" s) [r] s =
       [POST "/api/beta-verify" [("email", trim (betaEmail s)); ("code", trim (betaOtp s))]]) /\
  (submitDisabled s = true -> trim (betaName s) <> [] -> trim (betaEmail s) <> [] ->
     requests (emailKeyDown "Enter" s) [r] s =
       [POST "/api/beta-signup" [("name", trim (betaName s));
                                 ("email", trim (betaEmail s));
                                 ("plan", js (betaChoice s))]]).
Proof.
  unfold requests, otpKeyDown, emailKeyDown, handleBetaVerify, handleBetaSubmit. simpl.
  split.
  - intros _ H. rewrite (is_empty_false _ H).
    destruct r as [|[|] [b|]]; reflexivity.
  - intros _ Hn He. rewrite (is_empty_false _ Hn), (is_empty_false _ He).
    destruct r as [|[|] [b|]]; reflexivity.
Qed.

Lemma enter_bypasses_disabled_buttons_witness :
  verifyDisabled (setBetaOtp (js "123") beta_verify_sample) = true /\
  requests (otpKeyDown "Enter" (setBetaOtp (js "123") beta_verify_sample)) [NetErr]
    (setBetaOtp (js "123") beta_verify_sample) =
  [POST "/api/beta-verify" [("email", js "ann@example.com"); ("code", js "123")]].
Proof.
  split; [reflexivity|].
  apply (enter_bypasses_disabled_buttons (setBetaOtp (js "123") beta_verify_sample) NetErr);
    [reflexivity | vm_compute; discriminate].
Defined.

(** [← Back] from the details form keeps the entered name and e-mail and
    the error message; picking a plan again returns to the form with them
    all still there (only the chosen plan changes). *)
Theorem back_then_pick_keeps_details (s : beta_state) (p : string) :
  let s' := final_state (seq_prog backToPick (pickPlan p)) [] s in
  betaStep s' = form /\ betaChoice s' = p /\
  betaName s' = betaName s /\ betaEmail s' = betaEmail s /\
  betaError s' = betaError s /\ betaOtp s' = betaOtp s.
Proof. repeat split. Qed.

(** [← Resend code] returns to the details form with the error cleared
    and the details kept; a successful resubmission then clears the code
    and comes back to the verify step, for the same chosen plan. *)
Theorem resend_then_submit (s : beta_state) (r : beta_resp) :
  trim (betaName s) <> [] -> trim (betaEmail s) <> [] -> request_ok r = true ->
  let s1 := final_state resendCode [] s in
  betaStep s1 = form /\ betaError s1 = "" /\
  betaName s1 = betaName s /\ betaEmail s1 = betaEmail s /\
  betaStep (final_state (handleBetaSubmit s1) [r] s1) = verify /\
  betaOtp (final_state (handleBetaSubmit s1) [r] s1) = [] /\
  betaChoice (final_state (handleBetaSubmit s1) [r] s1) = betaChoice s.
Proof.
  intros Hn He Hok. simpl.
  unfold final_state, handleBetaSubmit. simpl.
  rewrite (is_empty_false _ Hn), (is_empty_false _ He).
  destruct r as [|[|] ob]; try discriminate. simpl. repeat split.
Qed.

Lemma resend_then_submit_witness :
  betaStep (final_state (handleBetaSubmit (final_state resendCode [] beta_verify_sample))
              [Resp true None] (final_state resendCode [] beta_verify_sample)) = verify.
Proof.
  apply (resend_then_submit beta_verify_sample (Resp true None));
    [vm_compute; discriminate | vm_compute; discriminate | reflexivity].
Defined.

(** ** Plan changes *)

(** A successful verification whose body has no [plan] sets the plan to
    [undefined]: from then on no entry is locked under any filter, while
    the signals request, whose [plan] parameter defaults [undefined] to
    "FREE", asks for [plan=FREE]. *)
Theorem verify_without_plan_unlocks (s : beta_state) (b : BetaBody) :
  trim (betaOtp s) <> [] -> body_plan b = None ->
  let s' := final_state (handleBetaVerify s) [Resp true (Some b)] s in
  plan s' = None /\
  (forall filter sigs nid p, obscured_at (render_signals (plan s') filter sigs nid) p = false) /\
  load_req (useSignals_load (plan s')) = GET "/api/signals?plan=FREE&limit=50".
Proof.
  intros Hotp Hb.
  assert (Hp : plan (final_state (handleBetaVerify s) [Resp true (Some b)] s) = None).
  { unfold final_state, handleBetaVerify. rewrite (is_empty_false _ Hotp). simpl. exact Hb. }
  simpl. rewrite Hp. split; [reflexivity | split; [|reflexivity]].
  intros filter sigs nid p. rewrite obscured_at_render.
  destruct (nth_error _ p); reflexivity.
Qed.

Lemma verify_without_plan_unlocks_witness :
  plan (final_state (handleBetaVerify beta_verify_sample)
          [Resp true (Some (mkBetaBody None None))] beta_verify_sample) = None.
Proof.
  apply (verify_without_plan_unlocks beta_verify_sample (mkBetaBody None None));
    [vm_compute; discriminate | reflexivity].
Defined.

(** ** Watchlist *)

(** Adding a non-blank ticker always ends with the input cleared, also
    when the create request failed (the hook swallows its error), and the
    held list is then the one it was before. *)
Theorem add_clears_input_even_on_failure (v : view_state) (r1 r2 : wl_resp) :
  toUpperCase (trim (tickerInput v)) <> [] ->
  tickerInput (final_state (handleAddTicker v) [r1; r2] v) = [] /\
  (fetchJSON r1 = None ->
     held (wl (final_state (handleAddTicker v) [r1; r2] v)) = held (wl v)).
Proof.
  intros H.
  unfold final_state, handleAddTicker. rewrite (is_empty_false _ H). simpl.
  destruct (fetchJSON r1); simpl; [destruct (fetchJSON r2)|]; simpl;
    split; auto; discriminate.
Qed.

Lemma add_clears_input_even_on_failure_witness :
  tickerInput (final_state (handleAddTicker (view_sample (js "bhp.ax"))) [NetErr; NetErr]
                 (view_sample (js "bhp.ax"))) = [].
Proof.
  apply (add_clears_input_even_on_failure (view_sample (js "bhp.ax")) NetErr NetErr).
  vm_compute. discriminate.
Defined.

Lemma last_good_get_app (ex1 ex2 : list (request * wl_resp)) (d : wl_json) :
  last_good_get (ex1 ++ ex2) d = last_good_get ex2 (last_good_get ex1 d).
Proof.
  revert d. induction ex1 as [|[q r] ex1 IH]; intros d; simpl; auto.
  destruct q; apply IH.
Qed.

Lemma op_held (o : wl_op) (s : wl_state) :
  held (fst (exchanges (op_prog o) (op_resps o) s)) =
  last_good_get (snd (exchanges (op_prog o) (op_resps o) s)) (held s).
Proof.
  destruct o as [r | t n r1 r2 | t r1 r2]; simpl.
  - destruct (fetchJSON r) eqn:E; simpl; rewrite ?E; reflexivity.
  - destruct (fetchJSON r1) eqn:E1; simpl;
      [destruct (fetchJSON r2) eqn:E2|]; simpl; rewrite ?E2; reflexivity.
  - destruct (fetchJSON r1) eqn:E1; simpl;
      [destruct (fetchJSON r2) eqn:E2|]; simpl; rewrite ?E2; reflexivity.
Qed.

(** Over any sequence of loads, adds and removes (each run to its end),
    the held watchlist is always the body of the last successful
    [GET /api/watchlist] among the requests exchanged, or the initial
    list when there was none: mutations never patch it locally. *)
Theorem watchlist_is_last_good_load (ops : list wl_op) (s : wl_state) :
  held (fst (run_ops ops s)) = last_good_get (snd (run_ops ops s)) (held s).
Proof.
  revert s. induction ops as [|o ops IH]; intros s; simpl; [reflexivity|].
  pose proof (op_held o s) as Ho.
  destruct (exchanges (op_prog o) (op_resps o) s) as [s1 ex1] eqn:E1.
  specialize (IH s1).
  destruct (run_ops ops s1) as [s2 ex2] eqn:E2. simpl in *.
  rewrite last_good_get_app, <- Ho. exact IH.
Qed.

(** ** Overlapping attempts *)

(** In a hook built on [load_set] (markets, chart data), whenever any
    awaiting attempt settles, [loading] becomes false and the held data
    becomes that attempt's result if it succeeded (and stays otherwise),
    whatever other attempts are still awaiting: the attempt that settles
    last wins, with no ordering by start time. *)
Theorem load_set_last_settled_wins {T} (path msg : string) (s0 : poll_state T)
    (tr : list (event (http_response T) unit)) (n : nat) (r : http_response T) :
  let L := const_load (load_set path msg) in
  let c := run_events L (mount L tt s0) tr in
  alive c = true ->
  (n < List.length (pending c))%nat ->
  loading (st (step L c (Deliver n r))) = false /\
  held (st (step L c (Deliver n r))) =
  match fetchJSON r with
  | Some d => d
  | None => held (st c)
  end.
Proof.
  cbv zeta. intros Ha Hn. rewrite load_set_eta in *.
  rewrite (deliver_state _ _ _ _ _ (load_set_no_fetch path msg)).
  2: apply reachable_inflight_ok, load_set_no_fetch.
  rewrite Ha.
  destruct (nth_error _ n) eqn:E.
  - unfold final_state. simpl. destruct (fetchJSON r); simpl; auto.
  - apply nth_error_None in E. lia.
Qed.

Lemma load_set_last_settled_wins_witness :
  held (st (step (const_load useMarkets_load)
              (run_events (const_load useMarkets_load)
                 (mount (const_load useMarkets_load) tt useMarkets_init)
                 [Tick; Deliver 1 (Resp true (Some ov_new))])
              (Deliver 0 (Resp true (Some ov_old))))) = ov_old.
Proof.
  exact (proj2 (load_set_last_settled_wins "/api/markets/overview" "Failed to fetch markets:"
                  useMarkets_init [Tick; Deliver 1 (Resp true (Some ov_new))] 0
                  (Resp true (Some ov_old)) eq_refl ltac:(simpl; lia))).
Defined.

(** ** Counts and the free-plan view *)

Lemma count_get_add (a : list (string * nat)) (k f : string) :
  count_get (count_add a k) f = (count_get a f + if String.eqb k f then 1 else 0)%nat.
Proof.
  induction a as [|[k' n] a IH]; simpl.
  - destruct (String.eqb k f); reflexivity.
  - destruct (String.eqb_spec k' k) as [->|Hne]; simpl.
    + destruct (String.eqb k f); lia.
    + rewrite IH. destruct (String.eqb_spec k' f) as [->|]; [|reflexivity].
      destruct (String.eqb_spec k f); [congruence | lia].
Qed.

Lemma count_get_fold (l : list Signal) (a : list (string * nat)) (f : string) :
  count_get (fold_left (fun a s => count_add a (signal s)) l a) f =
  (count_get a f + List.length (filter (fun s => String.eqb (signal s) f) l))%nat.
Proof.
  revert a. induction l as [|x l IH]; intros a; simpl; [lia|].
  rewrite IH, count_get_add. destruct (String.eqb (signal x) f); simpl; lia.
Qed.

(** For every category tab other than ALL, the count badge
    [counts[f] || 0] equals the number of entries the filtered view
    lists, locked ones included. *)
Theorem counts_match_filtered (sigs : list Signal) (f : string) :
  f <> "ALL" ->
  count_get (counts sigs) f = List.length (filtered f sigs).
Proof.
  intros Hf. unfold counts, filtered. rewrite count_get_fold.
  apply String.eqb_neq in Hf. rewrite Hf. reflexivity.
Qed.

Lemma counts_match_filtered_witness :
  "BUY" <> "ALL" /\ count_get (counts feed5) "BUY" = List.length (filtered "BUY" feed5).
Proof.
  assert (H : "BUY" <> "ALL") by discriminate.
  split; [exact H | apply (counts_match_filtered feed5 "BUY" H)].
Defined.

Lemma indexOf_from_ge (l : list Signal) (x : Signal) (i : Z) :
  In (ref x) (map ref l) -> (i <= indexOf_from l x i)%Z.
Proof.
  revert i. induction l as [|y l IH]; intros i H; simpl in *; [contradiction|].
  destruct (Nat.eqb_spec (ref y) (ref x)); [lia|].
  destruct H as [H|H]; [congruence|]. specialize (IH (i + 1)%Z H). lia.
Qed.

Lemma filter_all_false {A} (f : A -> bool) (l : list A) :
  (forall x, In x l -> f x = false) -> filter f l = [].
Proof.
  induction l as [|x l IH]; intros H; simpl; [reflexivity|].
  rewrite (H x (or_introl eq_refl)). apply IH. intros y Hy. apply H. right. exact Hy.
Qed.

Lemma unlocked_at_most (p : Signal -> bool) (l : list Signal) (i : Z) (k : nat) :
  NoDup (map ref l) ->
  (List.length (filter (fun x => (indexOf_from l x i <? i + Z.of_nat k)%Z) (filter p l))
   <= k)%nat.
Proof.
  revert i k. induction l as [|y l IH]; intros i k Hnd; [simpl; lia|].
  inversion Hnd as [|? ? Hnotin Hnd']; subst.
  assert (Htail : forall x, In x l ->
            indexOf_from (y :: l) x i = indexOf_from l x (i + 1)).
  { intros x Hx. simpl.
    destruct (Nat.eqb_spec (ref y) (ref x)) as [E|]; [|reflexivity].
    exfalso. apply Hnotin. rewrite E. apply in_map. exact Hx. }
  assert (Hge : forall x, In x l -> (i + 1 <= indexOf_from l x (i + 1))%Z).
  { intros x Hx. apply indexOf_from_ge. apply in_map. exact Hx. }
  assert (Hy : indexOf_from (y :: l) y i = i) by (simpl; rewrite Nat.eqb_refl; reflexivity).
  set (Q := fun x => (indexOf_from (y :: l) x i <? i + Z.of_nat k)%Z).
  destruct k as [|k].
  - rewrite (filter_all_false Q); [simpl; lia|].
    intros x Hx. apply filter_In in Hx as [Hx _]. unfold Q.
    destruct Hx as [<-|Hx]; apply Z.ltb_ge; [lia|].
    rewrite (Htail x Hx). specialize (Hge x Hx). lia.
  - assert (Heq : filter Q (filter p l) =
                  filter (fun x => (indexOf_from l x (i + 1) <? (i + 1) + Z.of_nat k)%Z)
                         (filter p l)).
    { apply filter_ext_in. intros x Hx. apply filter_In in Hx as [Hx _].
      unfold Q. rewrite (Htail x Hx). f_equal. lia. }
    specialize (IH (i + 1)%Z k Hnd').
    assert (HQy : Q y = true) by (unfold Q; rewrite Hy; apply Z.ltb_lt; lia).
    cbn [filter]. destruct (p y).
    + cbn [filter]. rewrite HQy. cbn [List.length]. rewrite Heq. lia.
    + rewrite Heq. lia.
Qed.

Lemma filtered_as_filter (f : string) (sigs : list Signal) :
  filtered f sigs =
  filter (fun s => if String.eqb f "ALL" then true else String.eqb (signal s) f) sigs.
Proof.
  unfold filtered. destruct (String.eqb f "ALL"); [|reflexivity].
  induction sigs as [|x l IH]; simpl; congruence.
Qed.

Lemma length_filter_map {A B} (q : B -> bool) (g : A -> B) (l : list A) :
  List.length (filter q (map g l)) = List.length (filter (fun x => q (g x)) l).
Proof.
  induction l as [|x l IH]; simpl; [reflexivity|].
  destruct (q (g x)); simpl; congruence.
Qed.

(** On the FREE plan, whatever category tab is selected, at most three
    entries of the list are rendered as readable [SignalCard]s, provided
    the feed holds distinct signal objects: the gate counts positions in
    the whole feed, of which only 0, 1 and 2 are open. *)
Theorem free_plan_at_most_three_cards (f : string) (sigs : list Signal) (nid : option Z) :
  NoDup (map ref sigs) ->
  (List.length (filter is_card (render_signals (Some "FREE") f sigs nid)) <= 3)%nat.
Proof.
  intros Hnd. unfold render_signals. rewrite length_filter_map, filtered_as_filter.
  rewrite (filter_ext (fun x => is_card _)
             (fun x => (indexOf_from sigs x 0 <? 0 + Z.of_nat 3)%Z)).
  - apply unlocked_at_most. exact Hnd.
  - intros x. unfold isLocked, indexOf, is_free. simpl.
    destruct (3 <=? indexOf_from sigs x 0)%Z eqn:E; simpl.
    + apply Z.leb_le in E. symmetry. apply Z.ltb_ge. lia.
    + apply Z.leb_gt in E. symmetry. apply Z.ltb_lt. lia.
Qed.

Lemma free_plan_at_most_three_cards_witness :
  NoDup (map ref feed5) /\
  (List.length (filter is_card (render_signals (Some "FREE") "ALL" feed5 None)) <= 3)%nat.
Proof.
  assert (H : NoDup (map ref feed5)) by (simpl; repeat constructor; simpl; intuition discriminate).
  split; [exact H | apply (free_plan_at_most_three_cards "ALL" feed5 None H)].
Defined.

(** ** timeAgo *)

(** A missing timestamp shows a dash; one that does not parse falls
    through every [<] test (they are false on [NaN]) and shows
    ["NaNd ago"], whatever the clock says. *)
Theorem timeAgo_missing_or_invalid (now : Z) :
  timeAgo now NoDate = "—" /\ timeAgo now InvalidDate = "NaNd ago".
Proof. split; reflexivity. Qed.

(** A timestamp less than a minute old, or any timestamp in the future,
    shows ["just now"]. *)
Theorem timeAgo_recent_or_future (now t : Z) :
  (now - 60000 < t)%Z -> timeAgo now (ValidDate t) = "just now".
Proof.
  intros H. unfold timeAgo; simpl.
  replace ((now - t) / 60000 <? 1)%Z with true; [reflexivity|].
  symmetry. apply Z.ltb_lt.
  apply Z.div_lt_upper_bound; lia.
Qed.

Lemma timeAgo_recent_or_future_witness :
  (2000000 - 60000 < 3000000)%Z /\ timeAgo 2000000 (ValidDate 3000000) = "just now".
Proof. split; [lia | apply timeAgo_recent_or_future; lia]. Defined.

(** Between one hour and one day the label is the number of whole hours:
    the two floor divisions (by 60000, then by 60) agree with one division
    by 3600000. *)
Theorem timeAgo_hours (now t : Z) :
  (3600000 <= now - t < 86400000)%Z ->
  timeAgo now (ValidDate t) = num_to_string (Num ((now - t) / 3600000)) ++ "h ago".
Proof.
  intros H. unfold timeAgo; simpl.
  assert (Hm : (60 <= (now - t) / 60000)%Z)
    by (apply Z.div_le_lower_bound; lia).
  assert (Hd : ((now - t) / 60000 / 60 = (now - t) / 3600000)%Z)
    by (rewrite Z.div_div; [reflexivity | lia | lia]).
  assert (Hh : ((now - t) / 3600000 < 24)%Z)
    by (apply Z.div_lt_upper_bound; lia).
  replace ((now - t) / 60000 <? 1)%Z with false by (symmetry; apply Z.ltb_ge; lia).
  replace ((now - t) / 60000 <? 60)%Z with false by (symmetry; apply Z.ltb_ge; lia).
  rewrite Hd. replace ((now - t) / 3600000 <? 24)%Z with true by (symmetry; apply Z.ltb_lt; lia).
  reflexivity.
Qed.

Lemma timeAgo_hours_witness :
  (3600000 <= 5400000 - 0 < 86400000)%Z /\ timeAgo 5400000 (ValidDate 0) = "1h ago".
Proof.
  split; [lia|]. rewrite (timeAgo_hours 5400000 0); [reflexivity | lia].
Defined.

(** ** SignalCard ticker badges *)

(** At most two ticker badges are shown, and the [+N more] badge accounts
    for exactly the rest: a missing list shows nothing. *)
Theorem ticker_badges_account (tickers : option (list string)) :
  let '(shown, more) := ticker_badges tickers in
  (List.length shown <= 2)%nat /\
  (List.length shown + match more with Some n => n | None => 0 end
   = List.length (match tickers with Some l => l | None => [] end))%nat /\
  (forall n, more = Some n -> 0 < n)%nat.
Proof.
  unfold ticker_badges.
  set (ts := match tickers with Some l => l | None => [] end).
  rewrite length_firstn.
  destruct (Nat.ltb_spec 2 (List.length ts)) as [H|H].
  - repeat split; [lia | lia |]. intros n E. injection E. lia.
  - repeat split; [lia | lia |]. discriminate.
Qed.

(** ** The new-signal flag *)

(** A successful poll replaces the list by the response, and [newId]
    either keeps its previous value (it is never reset to [null]) or
    becomes the id of an entry of the response whose id the previous list
    did not hold. *)
Theorem signals_newId_sticky (data : list Signal) (s : sig_state) :
  signals (signals_updater data s) = data /\
  (newId (signals_updater data s) = newId s \/
   exists e, In e data /\ ~ In (id e) (map id (signals s)) /\
             newId (signals_updater data s) = Some (id e)).
Proof.
  unfold signals_updater; simpl. split; [reflexivity|].
  destruct (newest (signals s) data) as [e|] eqn:E; [right | left; reflexivity].
  apply find_some in E as [Hin Hp]. apply absent_pred in Hp.
  exists e. repeat split; assumption.
Qed.
